(** * An LTI 1.3 example tool: game/views.py and game/urls.py

    A shallow embedding of the Django views of the example tool, with the
    properties that its specification states of them.

    The views are glue between three things that are not part of the
    repository: the Python runtime, the Django framework and the pylti1p3
    library.  Each has a part of the file of its own ([python], [django],
    [pylti1p3]) that holds as much of its behaviour as the views rely on.
    The objects of the library are records of what their methods answer, so
    that what is proved of a view holds whatever the library and the platform
    behind it answer; the calls that leave the process are logged in the
    order made.  Two pieces of the library that the specification describes,
    the validation of an incoming launch and the load of a launch from the
    cache, are modelled from the specification and marked as such.

    The views themselves are one module per class of views.py, with the
    methods under their own names: [LTIView], [CachedLTIView], [LaunchView],
    [LaunchDataView], [CompleteDeepLinkView], [SetScoreView] and
    [ScoreboardView], with [ExtendedDjangoMessageLaunch] and the constants of
    [DynamicRegistration]. *)

From stdpp Require Import base option list gmap strings.
From Stdlib Require Import ZArith Ascii.

Set Warnings "-register-all".
Set Default Proof Using "Type".

Local Open Scope string_scope.
Local Open Scope Z_scope.

(** * Python values, exceptions and the effects of a view *)

Module python.

(** A Python value as the views see it: what JSON decoding produces
    (numbers restricted to integers), and opaque objects given by their
    name. *)
Inductive val :=
  | VNone
  | VBool (b : bool)
  | VInt (z : Z)
  | VStr (s : string)
  | VList (l : list val)
  | VDict (d : gmap string val)
  | VObject (name : string).

(** The exceptions that the views meet, with the key that was missing or
    with the message, which is what [str(e)] gives. *)
Inductive exn :=
  | KeyError (key : val)
  | TypeError (msg : string)
  | ValueError (msg : string)
  | AttributeError (msg : string)
  | Exception (msg : string)
  | LtiException (msg : string)
  | LtiServiceException (msg : string).

Inductive result (A : Type) :=
  | Ok (a : A)
  | Raise (e : exn).
Arguments Ok {A} a.
Arguments Raise {A} e.

(** Truth value of an object in [if x:]. *)
Definition truthy (v : val) : bool :=
  match v with
  | VNone => false
  | VBool b => b
  | VInt z => negb (z =? 0)
  | VStr s => negb (String.eqb s "")
  | VList l => match l with [] => false | _ => true end
  | VDict d => negb (bool_decide (d = ∅))
  | VObject _ => true
  end.

(** An optional string as a value: [None] or the string. *)
Definition of_opt (o : option string) : val :=
  match o with Some s => VStr s | None => VNone end.

(** How an optional string is formatted inside an f-string. *)
Definition format_opt (o : option string) : string :=
  match o with Some s => s | None => "None" end.

(** [d.get(key)] on a dict: [None] when the key is absent. *)
Definition dict_get (d : gmap string val) (key : string) : val :=
  default VNone (d !! key).

(** [d.get(key, default)] on a dict. *)
Definition dict_get_default (d : gmap string val) (key : string) (dflt : val) : val :=
  default dflt (d !! key).

(** [d[key]] on a dict. *)
Definition dict_item (d : gmap string val) (key : string) : result val :=
  match d !! key with
  | Some v => Ok v
  | None => Raise (KeyError (VStr key))
  end.

(** [x.get(key)] on an arbitrary value: only dicts have the method. *)
Definition attr_get (x : val) (key : string) : result val :=
  match x with
  | VDict d => Ok (dict_get d key)
  | _ => Raise (AttributeError "object has no attribute 'get'")
  end.

(** Keys of a Python dict.  Lists and dicts are unhashable; [True] and
    [False] hash and compare as [1] and [0]; objects are compared by
    name. *)
Inductive hkey :=
  | HNone
  | HInt (z : Z)
  | HStr (s : string)
  | HObject (name : string).

Definition hash (v : val) : result hkey :=
  match v with
  | VNone => Ok HNone
  | VBool b => Ok (HInt (Z.b2z b))
  | VInt z => Ok (HInt z)
  | VStr s => Ok (HStr s)
  | VObject n => Ok (HObject n)
  | VList _ => Raise (TypeError "unhashable type: 'list'")
  | VDict _ => Raise (TypeError "unhashable type: 'dict'")
  end.

#[global] Instance hkey_eq_dec : EqDecision hkey.
Proof. solve_decision. Defined.

Definition hkey_encode (k : hkey) : unit + Z + string + string :=
  match k with
  | HNone => inl (inl (inl ()))
  | HInt z => inl (inl (inr z))
  | HStr s => inl (inr s)
  | HObject n => inr n
  end.

Definition hkey_decode (x : unit + Z + string + string) : hkey :=
  match x with
  | inl (inl (inl _)) => HNone
  | inl (inl (inr z)) => HInt z
  | inl (inr s) => HStr s
  | inr n => HObject n
  end.

#[global] Instance hkey_countable : Countable hkey.
Proof. apply (inj_countable' hkey_encode hkey_decode). by intros []. Defined.

(** ** [int(s)] on a string

    A string holds the UTF-8 encoding of the characters of a Python [str].
    [int] reads them as CPython does for a [str] in base 10
    ([PyLong_FromUnicodeObject]): the white space and the decimal digits
    that are not ASCII are first replaced by blanks and by ASCII digits;
    then white space around the number is skipped, one sign is allowed, the
    digits may be grouped by single underscores, and a number of more than
    [int_max_str_digits] digits is refused.  The characters are classified
    as in Unicode 14.0, the character database of CPython 3.11, and the
    limit on the digits is the interpreter's default. *)

Definition byte_value (c : ascii) : Z := Z.of_N (N_of_ascii c).

(** The six bits that a continuation byte carries. *)
Definition continuation (c : ascii) : option Z :=
  let b := byte_value c in
  if (0x80 <=? b) && (b <=? 0xBF) then Some (b - 0x80) else None.

(** The character of a lead byte and its continuation bytes, in the
    shortest form only; the surrogates are no characters. *)
Definition two_bytes (b : Z) (c1 : ascii) : option Z :=
  match continuation c1 with
  | Some x1 =>
      let ch := (b - 0xC0) * 0x40 + x1 in
      if 0x80 <=? ch then Some ch else None
  | None => None
  end.

Definition three_bytes (b : Z) (c1 c2 : ascii) : option Z :=
  match continuation c1, continuation c2 with
  | Some x1, Some x2 =>
      let ch := (b - 0xE0) * 0x1000 + x1 * 0x40 + x2 in
      if (0x800 <=? ch) && negb ((0xD800 <=? ch) && (ch <=? 0xDFFF))
      then Some ch else None
  | _, _ => None
  end.

Definition four_bytes (b : Z) (c1 c2 c3 : ascii) : option Z :=
  match continuation c1, continuation c2, continuation c3 with
  | Some x1, Some x2, Some x3 =>
      let ch := (b - 0xF0) * 0x40000 + x1 * 0x1000 + x2 * 0x40 + x3 in
      if (0x10000 <=? ch) && (ch <=? 0x10FFFF) then Some ch else None
  | _, _, _ => None
  end.

(** The characters of a string, by their code points; [None] for bytes that
    are not the encoding of a [str].  No request holds such a string: Django
    decodes what is posted and puts the replacement character, which [int]
    refuses, where the bytes are not UTF-8. *)
Fixpoint chars_of_utf8 (s : string) : option (list Z) :=
  match s with
  | EmptyString => Some []
  | String c s1 =>
      let b := byte_value c in
      if b <? 0x80 then cons b <$> chars_of_utf8 s1
      else if b <? 0xC0 then None
      else if b <? 0xE0 then
        match s1 with
        | String c1 s2 =>
            match two_bytes b c1 with
            | Some ch => cons ch <$> chars_of_utf8 s2
            | None => None
            end
        | _ => None
        end
      else if b <? 0xF0 then
        match s1 with
        | String c1 (String c2 s3) =>
            match three_bytes b c1 c2 with
            | Some ch => cons ch <$> chars_of_utf8 s3
            | None => None
            end
        | _ => None
        end
      else
        match s1 with
        | String c1 (String c2 (String c3 s4)) =>
            match four_bytes b c1 c2 c3 with
            | Some ch => cons ch <$> chars_of_utf8 s4
            | None => None
            end
        | _ => None
        end
  end.

(** [Py_ISSPACE], the white space of the C locale. *)
Definition Py_ISSPACE (ch : Z) : bool :=
  (0x09 <=? ch) && (ch <=? 0x0D) || (ch =? 0x20).

(** [Py_UNICODE_ISSPACE], the white space of [str]. *)
Definition Py_UNICODE_ISSPACE (ch : Z) : bool :=
  (0x09 <=? ch) && (ch <=? 0x0D) || (0x1C <=? ch) && (ch <=? 0x20)
  || (ch =? 0x85) || (ch =? 0xA0) || (ch =? 0x1680)
  || (0x2000 <=? ch) && (ch <=? 0x200A)
  || (ch =? 0x2028) || (ch =? 0x2029) || (ch =? 0x202F) || (ch =? 0x205F)
  || (ch =? 0x3000).

(** The decimal digits come in runs of ten, from zero to nine: the zero of
    each run. *)
Definition decimal_zeros : list Z :=
  [ 0x30; 0x660; 0x6F0; 0x7C0; 0x966; 0x9E6; 0xA66; 0xAE6; 0xB66; 0xBE6;
    0xC66; 0xCE6; 0xD66; 0xDE6; 0xE50; 0xED0; 0xF20; 0x1040; 0x1090; 0x17E0;
    0x1810; 0x1946; 0x19D0; 0x1A80; 0x1A90; 0x1B50; 0x1BB0; 0x1C40; 0x1C50;
    0xA620; 0xA8D0; 0xA900; 0xA9D0; 0xA9F0; 0xAA50; 0xABF0; 0xFF10; 0x104A0;
    0x10D30; 0x11066; 0x110F0; 0x11136; 0x111D0; 0x112F0; 0x11450; 0x114D0;
    0x11650; 0x116C0; 0x11730; 0x118E0; 0x11950; 0x11C50; 0x11D50; 0x11DA0;
    0x16A60; 0x16AC0; 0x16B50; 0x1D7CE; 0x1D7D8; 0x1D7E2; 0x1D7EC; 0x1D7F6;
    0x1E140; 0x1E2F0; 0x1E950; 0x1FBF0 ].

(** [Py_UNICODE_TODECIMAL]: the value of a decimal digit. *)
Definition Py_UNICODE_TODECIMAL (ch : Z) : option Z :=
  match List.find (λ zero, (zero <=? ch) && (ch <? zero + 10)) decimal_zeros with
  | Some zero => Some (ch - zero)
  | None => None
  end.

(** [_PyUnicode_TransformDecimalAndSpaceToASCII] on a [str] that is not
    ASCII: at the first character that is neither, a question mark ends the
    result. *)
Fixpoint transform_decimal_and_space (u : list Z) : list Z :=
  match u with
  | [] => []
  | ch :: u' =>
      if ch <? 127 then ch :: transform_decimal_and_space u'
      else if Py_UNICODE_ISSPACE ch then 0x20 :: transform_decimal_and_space u'
      else
        match Py_UNICODE_TODECIMAL ch with
        | Some decimal => (0x30 + decimal) :: transform_decimal_and_space u'
        | None => [0x3F]
        end
  end.

Definition transform_decimal_and_space_to_ascii (u : list Z) : list Z :=
  if forallb (λ ch, ch <? 128) u then u else transform_decimal_and_space u.

Fixpoint skip_space (str : list Z) : list Z :=
  match str with
  | ch :: str' => if Py_ISSPACE ch then skip_space str' else str
  | [] => []
  end.

Definition digit_value (ch : Z) : option Z :=
  if (0x30 <=? ch) && (ch <=? 0x39) then Some (ch - 0x30) else None.

Definition underscore : Z := 0x5F.

(** [sys.get_int_max_str_digits()] *)
Definition int_max_str_digits : Z := 4300.

(** The digits and underscores at the start of [str], which [prev] comes
    before: the number that they write after [z], their count of digits
    added to [digits], and what follows them; [None] for two underscores in
    a row and for an underscore at their end. *)
Fixpoint scan_digits (str : list Z) (prev z digits : Z) : option (Z * Z * list Z) :=
  match str with
  | ch :: str' =>
      match digit_value ch with
      | Some d => scan_digits str' ch (10 * z + d) (digits + 1)
      | None =>
          if ch =? underscore then
            if prev =? underscore then None else scan_digits str' ch z digits
          else if prev =? underscore then None
          else Some (z, digits, str)
      end
  | [] => if prev =? underscore then None else Some (z, digits, [])
  end.

(** The number after the sign: it does not start with an underscore, has a
    digit, and only white space follows it. *)
Definition long_from_string_base (str : list Z) : option Z :=
  match str with
  | [] => None
  | ch :: _ =>
      if ch =? underscore then None
      else
        match scan_digits str 0 0 0 with
        | Some (z, digits, rest) =>
            if digits =? 0 then None
            else if int_max_str_digits <? digits then None
            else
              match skip_space rest with
              | [] => Some z
              | _ :: _ => None
              end
        | None => None
        end
  end.

(** [PyLong_FromString] in base 10, on all of [str]. *)
Definition PyLong_FromString (str : list Z) : option Z :=
  match skip_space str with
  | [] => None
  | ch :: str' =>
      if ch =? 0x2B then long_from_string_base str'
      else if ch =? 0x2D then Z.opp <$> long_from_string_base str'
      else long_from_string_base (ch :: str')
  end.

Definition int_of_str (s : string) : option Z :=
  match chars_of_utf8 s with
  | Some u => PyLong_FromString (transform_decimal_and_space_to_ascii u)
  | None => None
  end.

(** [int(x)] where [x] is a string or [None]. *)
Definition int (x : option string) : result Z :=
  match x with
  | None => Raise (TypeError "int() argument must be a string, a bytes-like object or a real number, not 'NoneType'")
  | Some s =>
      match int_of_str s with
      | Some z => Ok z
      | None => Raise (ValueError "invalid literal for int() with base 10")
      end
  end.

End python.
Export python.

(** * The pylti1p3 library, as far as the views use it *)

Module Grade.
Record t := mk {
  score_given : option Z;
  score_maximum : option Z;
  timestamp : option string;
  activity_progress : option string;
  grading_progress : option string;
  user_id : val
}.
(** [Grade()] *)
Definition new : t := mk None None None None None VNone.
Definition set_score_given (x : Z) (g : t) : t :=
  mk (Some x) (score_maximum g) (timestamp g) (activity_progress g)
     (grading_progress g) (user_id g).
Definition set_score_maximum (x : Z) (g : t) : t :=
  mk (score_given g) (Some x) (timestamp g) (activity_progress g)
     (grading_progress g) (user_id g).
Definition set_timestamp (x : string) (g : t) : t :=
  mk (score_given g) (score_maximum g) (Some x) (activity_progress g)
     (grading_progress g) (user_id g).
Definition set_activity_progress (x : option string) (g : t) : t :=
  mk (score_given g) (score_maximum g) (timestamp g) x
     (grading_progress g) (user_id g).
Definition set_grading_progress (x : option string) (g : t) : t :=
  mk (score_given g) (score_maximum g) (timestamp g) (activity_progress g)
     x (user_id g).
Definition set_user_id (x : val) (g : t) : t :=
  mk (score_given g) (score_maximum g) (timestamp g) (activity_progress g)
     (grading_progress g) x.
End Grade.

Module LineItem.
Record t := mk {
  tag : option string;
  score_maximum : option Z;
  label : option string;
  resource_id : val
}.
(** [LineItem()] *)
Definition new : t := mk None None None VNone.
Definition set_tag (x : string) (l : t) : t :=
  mk (Some x) (score_maximum l) (label l) (resource_id l).
Definition set_score_maximum (x : Z) (l : t) : t :=
  mk (tag l) (Some x) (label l) (resource_id l).
Definition set_label (x : string) (l : t) : t :=
  mk (tag l) (score_maximum l) (Some x) (resource_id l).
Definition set_resource_id (x : val) (l : t) : t :=
  mk (tag l) (score_maximum l) (label l) x.
End LineItem.

Module DeepLinkResource.
Record t := mk {
  url : option string;
  custom_params : option (gmap string val);
  title : option string
}.
(** [DeepLinkResource()] *)
Definition new : t := mk None None None.
Definition set_url (x : string) (r : t) : t :=
  mk (Some x) (custom_params r) (title r).
Definition set_custom_params (x : gmap string val) (r : t) : t :=
  mk (url r) (Some x) (title r).
Definition set_title (x : string) (r : t) : t :=
  mk (url r) (custom_params r) (Some x).
End DeepLinkResource.

(** Method chaining: [x |> f |> g] is [x.f().g()]. *)
Notation "x |> f" := (f x) (at level 45, left associativity, only parsing).

Module pylti1p3.

(** The grade service of a launch: what each of its methods answers.  The
    answers of [put_grade], [find_or_create_lineitem] and [get_grades] come
    from the platform, and are [Raise (LtiServiceException _)] when the
    platform refuses. *)
Record AssignmentsGradesService := {
  can_create_lineitem : bool;
  put_grade : Grade.t → option LineItem.t → result (gmap string val);
  find_or_create_lineitem : LineItem.t → result LineItem.t;
  get_grades : option LineItem.t → result (list (gmap string val))
}.

Record NamesRolesProvisioningService := {
  get_members : result (list (gmap string val))
}.

Record DeepLink := {
  output_response_form : list DeepLinkResource.t → result string
}.

(** A message launch: what each of its methods answers.  The last three
    fields are the outcome of the library's own validation steps on the
    launch: the steps before the nonce, the library's nonce validation, and
    the steps after it ([None]: the step passes). *)
Record MessageLaunch := {
  get_iss : string;
  is_deep_link_launch : bool;
  check_teacher_access : bool;
  check_teaching_assistant_access : bool;
  check_student_access : bool;
  get_launch_data : gmap string val;
  get_launch_id : string;
  has_ags : bool;
  has_nrps : bool;
  get_ags : AssignmentsGradesService;
  get_nrps : NamesRolesProvisioningService;
  get_deep_link : DeepLink;
  validation_before_nonce : option exn;
  library_nonce_validation : option exn;
  validation_after_nonce : option exn
}.

(** [DjangoCacheDataStorage]: the launches kept in the cache, by
    launch id. *)
Abbreviation DjangoCacheDataStorage := (gmap string MessageLaunch).

(** [TeacherRole(data).check()] and [StudentRole(data).check()], as
    functions of the roles in [data]. *)
Record Roles := {
  TeacherRole_check : val → result bool;
  StudentRole_check : val → result bool
}.

(** The calls a view makes that leave the process, in the order made. *)
Inductive call :=
  | print (line : string)
  | validate_nonce_call
  | save_launch_data_call (launch_id : string) (launch : MessageLaunch)
  | from_cache_call (launch_id : option string)
  | put_grade_call (sc : Grade.t) (line_item : option LineItem.t)
  | find_or_create_lineitem_call (line_item : LineItem.t)
  | get_grades_call (line_item : option LineItem.t)
  | get_members_call
  | output_response_form_call (resources : list DeepLinkResource.t).

End pylti1p3.
Export pylti1p3.

(** * Effects: the calls made so far, and a value or an exception *)

Definition M (A : Type) : Type := list call * result A.

Definition ret {A} (a : A) : M A := ([], Ok a).
Definition raise {A} (e : exn) : M A := ([], Raise e).
Definition lift {A} (r : result A) : M A := ([], r).
Definition perform {A} (c : call) (r : result A) : M A := ([c], r).
Definition bind {A B} (m : M A) (f : A → M B) : M B :=
match m with
| (t, Ok a) => let (t', r) := f a in ((t ++ t')%list, r)
| (t, Raise e) => (t, Raise e)
end.

(** [try: m  except E as e: handler e], where [handler] answers [None] on the
  exceptions that are not of class [E]. *)
Definition try_except {A} (m : M A) (handler : exn → option (M A)) : M A :=
match m with
| (t, Ok a) => (t, Ok a)
| (t, Raise e) =>
    match handler e with
    | Some h => let (t', r) := h in ((t ++ t')%list, r)
    | None => (t, Raise e)
    end
end.

Definition calls {A} (m : M A) : list call := m.1.
Definition outcome {A} (m : M A) : result A := m.2.

Declare Scope M_scope.
Delimit Scope M_scope with M.
Notation "x <- m ;; k" := (bind m (fun x => k))
(at level 100, m at next level, right associativity) : M_scope.
Notation "m ;; k" := (bind m (fun _ => k))
(at level 100, right associativity) : M_scope.
Local Open Scope M_scope.

Definition rbind {A B} (r : result A) (f : A → result B) : result B :=
  match r with
  | Ok a => f a
  | Raise e => Raise e
  end.

Declare Scope R_scope.
Delimit Scope R_scope with R.
Notation "x <- m ;; k" := (rbind m (fun x => k))
  (at level 100, m at next level, right associativity) : R_scope.

(** * The Django framework, as far as the views use it *)

Module http.
Inductive method := GET | POST | PUT | PATCH | DELETE | HEAD | OPTIONS | TRACE.
#[global] Instance method_eq_dec : EqDecision method.
Proof. solve_decision. Defined.
End http.

Module django.

(** [QueryDict.get(key, default)]: the last value given for the key. *)
Definition QueryDict_get (q : gmap string (list string)) (key : string)
    (default : option string) : option string :=
  match q !! key with
  | Some l => match last l with Some v => Some v | None => default end
  | None => default
  end.

Record HttpRequest := {
  method : http.method;
  POST : gmap string (list string);
  GET : gmap string (list string);
  scheme_host : string
}.

(** [request.build_absolute_uri(location)] for a path on this host. *)
Definition build_absolute_uri (request : HttpRequest) (location : string) : string :=
  scheme_host request ++ location.

Inductive content :=
  | Text (s : string)
  | Json (data : val)
  | Page (template : string) (context : gmap string val).

Record response := { status_code : Z; body : content }.

Definition HttpResponse (s : string) : response :=
  {| status_code := 200; body := Text s |}.
Definition HttpResponseForbidden (s : string) : response :=
  {| status_code := 403; body := Text s |}.
Definition HttpResponseNotAllowed : response :=
  {| status_code := 405; body := Text "" |}.
Definition JsonResponse (data : val) : response :=
  {| status_code := 200; body := Json data |}.

(** [django.shortcuts.render]: the page, rendered at once. *)
Definition render (template : string) (context : gmap string val) : response :=
  {| status_code := 200; body := Page template context |}.

(** What a method called [get_context_data] handed back: a dict, or
    something that is not one. *)
Inductive context_object :=
  | Context (d : gmap string val)
  | NotADict (o : response).

(** What a handler returns: a finished response, or a [TemplateResponse]
    that is rendered later from the template names and the context it was
    given. *)
Inductive view_response :=
  | Plain (r : response)
  | TemplateResponse (template : list string) (context : context_object).

(** [django.template.context.make_context]: the context of a template is a
    dict. *)
Definition make_context (context : context_object) : result (gmap string val) :=
  match context with
  | Context d => Ok d
  | NotADict _ =>
      Raise (TypeError "context must be a dict rather than HttpResponseForbidden.")
  end.

(** The framework renders what the handler returned, with the first of the
    template names. *)
Definition finish (r : view_response) : result response :=
  match r with
  | Plain r => Ok r
  | TemplateResponse names context =>
      match names with
      | [] => Raise (Exception "TemplateDoesNotExist")
      | name :: _ =>
          match make_context context with
          | Ok d => Ok (render name d)
          | Raise e => Raise e
          end
      end
  end.

(** [ContextMixin.get_context_data]: the keyword arguments, and
    the view under ['view'] unless that key is taken. *)
Definition ContextMixin_get_context_data (view : string) (kwargs : gmap string string)
    : gmap string val :=
  let ctx : gmap string val := VStr <$> kwargs in
  match ctx !! "view" with
  | Some _ => ctx
  | None => <["view" := VObject view]> ctx
  end.

(** [View.dispatch]: the handler named after the request's method, when the
    method is among [http_method_names] and the class has such a handler.
    A class with a [get] handler answers [HEAD] with it, and every class
    answers [OPTIONS]. *)
Definition View_dispatch {A} (http_method_names : list http.method)
    (get post : option A) (options not_allowed : A) (m : http.method) : A :=
  if bool_decide (m ∈ http_method_names) then
    match m with
    | http.GET | http.HEAD => default not_allowed get
    | http.POST => default not_allowed post
    | http.OPTIONS => options
    | _ => not_allowed
    end
  else not_allowed.

(** [TemplateResponseMixin.render_to_response(context)]: a
    [TemplateResponse] of the view's template names and the context. *)
Definition render_to_response (get_template_names : M (list string))
    (context : context_object) : M view_response :=
  bind get_template_names (λ names, ret (TemplateResponse names context)).

(** [TemplateView.get]: the context is whatever [get_context_data] returns. *)
Definition TemplateView_get (get_context_data : M context_object)
    (render_to_response : context_object → M view_response) : M view_response :=
  bind get_context_data render_to_response.

(** [View.options] and [View.http_method_not_allowed]. *)
Definition View_options : M view_response := ret (Plain (HttpResponse "")).
Definition http_method_not_allowed : M view_response := ret (Plain HttpResponseNotAllowed).

Definition default_http_method_names : list http.method :=
  [http.GET; http.POST; http.PUT; http.PATCH; http.DELETE; http.HEAD;
   http.OPTIONS; http.TRACE].

End django.
Export django.

(** * game/urls.py *)

Module urls.

(** A route: [path(route, ...)], or
    [re_path('^' + prefix + '(?P<launch_id>[\w-]+)/$', ...)]. *)
Inductive route :=
  | path (r : string)
  | re_path_launch_id (prefix : string).

(** The routes with their names. *)
Definition urlpatterns : list (route * option string) :=
  [ (path "admin/", None);
    (path "login/", Some "game-login");
    (path "register/", Some "register");
    (path "launch/", Some "game-launch");
    (path "jwks/", Some "game-jwks");
    (path "complete-deep-link/", Some "game-complete-deep-link");
    (re_path_launch_id "api/score/", Some "game-api-set-score");
    (re_path_launch_id "scoreboard/", Some "scoreboard");
    (re_path_launch_id "launch-data/", Some "launch_data") ].

(** [reverse(name)], called without arguments. *)
Definition reverse (name : string) : result string :=
  match list_find (λ p, p.2 = Some name) urlpatterns with
  | Some (_, (path r, _)) => Ok ("/" ++ r)
  | _ => Raise (Exception "NoReverseMatch")
  end.

End urls.

(** * game/views.py *)

Definition PAGE_TITLE : string := "LTI 1.3 example".
Definition PAGE_DESCRIPTION : string := "A demonstration of pylti1p3".

(** The library's [DjangoMessageLaunch], the base class of the launch class
    of the views. *)
Module DjangoMessageLaunch.

Definition passes {A} (a : A) (step : option exn) : result A :=
  match step with
  | None => Ok a
  | Some e => Raise e
  end.

(** The library's own [validate_nonce]. *)
Definition validate_nonce (self : MessageLaunch) : M MessageLaunch :=
  perform validate_nonce_call (passes self (library_nonce_validation self)).

(** Modelled from the spec: the validation of an incoming launch by the
    library is not part of the sources.  It runs the validation steps of the
    library, [validate_nonce] of the launch class among them, and then
    persists the launch to the cache under its launch id. *)
Definition validate (validate_nonce : MessageLaunch → M MessageLaunch)
    (self : MessageLaunch) : M MessageLaunch :=
  (lift (passes self (validation_before_nonce self));;
   validate_nonce self;;
   lift (passes self (validation_after_nonce self));;
   perform (save_launch_data_call (get_launch_id self) self) (Ok self))%M.

(** Modelled from the spec: [from_cache] of the library is not part of the
    sources.  It fetches the launch kept under the launch id, and fails if
    the id is absent or nothing is cached under it. *)
Definition from_cache (launch_id : option string)
    (launch_data_storage : gmap string MessageLaunch) : M MessageLaunch :=
  perform (from_cache_call launch_id)
    match launch_id with
    | Some i =>
        match launch_data_storage !! i with
        | Some launch => Ok launch
        | None => Raise (LtiException "Launch data not found")
        end
    | None => Raise (LtiException "Launch data not found")
    end.

(** The cache after the calls of a view. *)
Definition storage_after (cs : list call)
    (launch_data_storage : gmap string MessageLaunch) : gmap string MessageLaunch :=
  foldl (λ st c,
           match c with
           | save_launch_data_call i launch => <[i := launch]> st
           | _ => st
           end) launch_data_storage cs.

End DjangoMessageLaunch.

Module ExtendedDjangoMessageLaunch.

(** The test platform sends an invalid nonce on deep-link launches: for its
    issuer the nonce validation is left out on such launches. *)
Definition validate_nonce (self : MessageLaunch) : M MessageLaunch :=
  let iss := get_iss self in
  let deep_link_launch := is_deep_link_launch self in
  if String.eqb iss "http://imsglobal.org" && deep_link_launch then
    ret self
  else
    DjangoMessageLaunch.validate_nonce self.

(** The first access to the data of an incoming launch validates it. *)
Definition get_launch_data_validating (self : MessageLaunch) : M (gmap string val) :=
  (DjangoMessageLaunch.validate validate_nonce self;;
   ret (get_launch_data self))%M.

End ExtendedDjangoMessageLaunch.

(** A view object: the request and the keyword arguments of the URL, and
    what the class attributes and the clock give. *)
Record view := {
  request : HttpRequest;
  kwargs : gmap string string;
  (** [launch_data_storage = DjangoCacheDataStorage()] *)
  launch_data_storage : gmap string MessageLaunch;
  (** [message_launch_cls(request, tool_conf, ...)]: the launch the library
      reads from the POST parameters of a request *)
  message_launch_cls : HttpRequest → MessageLaunch;
  (** the role classes of the library *)
  roles : Roles;
  (** [datetime.datetime.utcnow().isoformat()] *)
  utcnow_isoformat : string
}.

Module LTIView.

Definition get_message_launch (self : view) : M MessageLaunch :=
  let message_launch := message_launch_cls self (request self) in
  ret message_launch.

(** [dispatch]: [self.message_launch] is set before the handler is chosen. *)
Definition dispatch {A} (get_message_launch : view → M MessageLaunch)
    (super_dispatch : view → MessageLaunch → M A) (self : view) : M A :=
  (message_launch <- get_message_launch self;;
   super_dispatch self message_launch)%M.

End LTIView.

Module CachedLTIView.

Definition launch_id_param : string := "launch_id".

Definition get_launch_id (self : view) : result (option string) :=
  Ok (QueryDict_get (POST (request self)) launch_id_param
        (kwargs self !! launch_id_param)).

Definition get_message_launch (get_launch_id : view → result (option string))
    (self : view) : M MessageLaunch :=
  (launch_id <- lift (get_launch_id self);;
   message_launch <-
     DjangoMessageLaunch.from_cache launch_id (launch_data_storage self);;
   ret message_launch)%M.

End CachedLTIView.

Definition quote : string := String (ascii_of_nat 34) EmptyString.

Definition RESOURCE_LINK : string :=
  "https://purl.imsglobal.org/spec/lti/claim/resource_link".
Definition CUSTOM : string :=
  "https://purl.imsglobal.org/spec/lti/claim/custom".
Definition MESSAGE_TYPE : string :=
  "https://purl.imsglobal.org/spec/lti/claim/message_type".
Definition ROLES : string :=
  "https://purl.imsglobal.org/spec/lti/claim/roles".

Module LaunchView.

Definition http_method_names : list http.method := [http.POST].

Definition get_template_names (message_launch : MessageLaunch) : M (list string) :=
  if check_teacher_access message_launch
     || check_teaching_assistant_access message_launch then
    if is_deep_link_launch message_launch then
      ret ["deep_link.html"]
    else
      ret ["teacher.html"]
  else if check_student_access message_launch then
    ret ["student.html"]
  else
    raise (Exception "You have an unknown role.").

Definition get_special_word (message_launch : MessageLaunch) : result val :=
  let message_launch_data := get_launch_data message_launch in
  let special_word :=
    attr_get (dict_get_default message_launch_data CUSTOM (VDict ∅)) "special_word" in
  special_word.

(** The method takes no keyword arguments; its callers pass it those of the
    URL. *)
Definition get_context_data (message_launch : MessageLaunch)
    (kwargs : gmap string string) : M (gmap string val) :=
  (if bool_decide (kwargs = ∅) then
     message_launch_data <-
       ExtendedDjangoMessageLaunch.get_launch_data_validating message_launch;;
     let message_type := dict_get message_launch_data MESSAGE_TYPE in
     curr_diff <- lift (get_special_word message_launch);;
     special_word <- lift (get_special_word message_launch);;
     ret (<["page_title" := VStr PAGE_TITLE]>
          (<["launch_data" := VDict message_launch_data]>
          (<["launch_id" := VStr (get_launch_id message_launch)]>
          (<["curr_user_name" := dict_get_default message_launch_data "name" (VStr "")]>
          (<["curr_diff" := curr_diff]>
          (<["special_word" := special_word]>
          (<["message_type" := message_type]> ∅)))))))
   else
     raise (TypeError "get_context_data() got an unexpected keyword argument"))%M.

Definition post (self : view) (message_launch : MessageLaunch) : M view_response :=
  (context <- get_context_data message_launch (kwargs self);;
   render_to_response (get_template_names message_launch) (Context context))%M.

(** [TemplateView.get], inherited. *)
Definition get (self : view) (message_launch : MessageLaunch) : M view_response :=
  TemplateView_get
    (context <- get_context_data message_launch (kwargs self);; ret (Context context))%M
    (render_to_response (get_template_names message_launch)).

(** [View.dispatch], inherited. *)
Definition super_dispatch (self : view) (message_launch : MessageLaunch)
    : M view_response :=
  View_dispatch http_method_names
    (Some (get self message_launch)) (Some (post self message_launch))
    View_options http_method_not_allowed (method (request self)).

Definition dispatch : view → M view_response :=
  LTIView.dispatch LTIView.get_message_launch super_dispatch.

End LaunchView.

Module LaunchDataView.

Definition get (self : view) (message_launch : MessageLaunch) : M view_response :=
  let message_launch_data := get_launch_data message_launch in
  ret (Plain (render "launch_data.html"
    (<["launch_id" := VStr (get_launch_id message_launch)]>
    (<["launch_data" := VDict message_launch_data]>
    (<["custom_params" := dict_get_default message_launch_data CUSTOM (VDict ∅)]>
     ∅))))).

(** [View.dispatch], inherited. *)
Definition super_dispatch (self : view) (message_launch : MessageLaunch)
    : M view_response :=
  View_dispatch default_http_method_names
    (Some (get self message_launch)) None
    View_options http_method_not_allowed (method (request self)).

Definition dispatch : view → M view_response :=
  LTIView.dispatch (CachedLTIView.get_message_launch CachedLTIView.get_launch_id) super_dispatch.

End LaunchDataView.

Module CompleteDeepLinkView.

Definition http_method_names : list http.method := [http.POST].

Definition get_deep_link_resource (self : view) : result DeepLinkResource.t :=
  let resource := DeepLinkResource.new in
  (path <- urls.reverse "game-launch";;
   let launch_url := build_absolute_uri (request self) path in
   let special_word := QueryDict_get (POST (request self)) "special-word" None in
   Ok (resource
       |> DeepLinkResource.set_url launch_url
       |> DeepLinkResource.set_custom_params {[ "special_word" := of_opt special_word ]}
       |> DeepLinkResource.set_title
            ("Activity with the special word " ++ quote
               ++ format_opt special_word ++ quote)))%R.

Definition post (self : view) (message_launch : MessageLaunch) : M view_response :=
  if negb (is_deep_link_launch message_launch) then
    ret (Plain (HttpResponseForbidden "Must be a deep link!"))
  else
    (resource <- lift (get_deep_link_resource self);;
     html <- perform (output_response_form_call [resource])
               (output_response_form (get_deep_link message_launch) [resource]);;
     ret (Plain (HttpResponse html)))%M.

(** [View.dispatch], inherited. *)
Definition super_dispatch (self : view) (message_launch : MessageLaunch)
    : M view_response :=
  View_dispatch http_method_names
    None (Some (post self message_launch))
    View_options http_method_not_allowed (method (request self)).

Definition dispatch : view → M view_response :=
  LTIView.dispatch (CachedLTIView.get_message_launch CachedLTIView.get_launch_id) super_dispatch.

End CompleteDeepLinkView.

Module SetScoreView.

Definition get_launch_id (self : view) : result (option string) :=
  match kwargs self !! "launch_id" with
  | Some launch_id => Ok (Some launch_id)
  | None => Raise (KeyError (VStr "launch_id"))
  end.

Definition post (self : view) (message_launch : MessageLaunch) : M view_response :=
  (resource_link_id <-
     lift (attr_get (dict_get_default (get_launch_data message_launch)
                       RESOURCE_LINK (VDict ∅)) "id");;
   if negb (has_ags message_launch) then
     ret (Plain (HttpResponseForbidden "This launch doesn't provide a grades service!"))
   else
     let sub := dict_get (get_launch_data message_launch) "sub" in
     let timestamp := utcnow_isoformat self ++ "Z" in
     score <- lift (int (QueryDict_get (POST (request self)) "score" None));;
     let activity_progress :=
       QueryDict_get (POST (request self)) "activity-progress" None in
     let grading_progress :=
       QueryDict_get (POST (request self)) "grading-progress" None in
     let ags := get_ags message_launch in
     try_except
       (result <-
          (if can_create_lineitem ags then
             perform (print "Create lineitem") (Ok ());;
             let sc := Grade.new
               |> Grade.set_score_given score
               |> Grade.set_score_maximum 100
               |> Grade.set_timestamp timestamp
               |> Grade.set_activity_progress activity_progress
               |> Grade.set_grading_progress grading_progress
               |> Grade.set_user_id sub in
             let sc_line_item := LineItem.new
               |> LineItem.set_tag "score"
               |> LineItem.set_score_maximum 100
               |> LineItem.set_label "Score" in
             let sc_line_item :=
               if truthy resource_link_id
               then sc_line_item |> LineItem.set_resource_id resource_link_id
               else sc_line_item in
             perform (put_grade_call sc (Some sc_line_item))
               (put_grade ags sc (Some sc_line_item))
           else
             perform (print "No line item") (Ok ());;
             let sc := Grade.new
               |> Grade.set_score_given score
               |> Grade.set_score_maximum 100
               |> Grade.set_timestamp timestamp
               |> Grade.set_activity_progress activity_progress
               |> Grade.set_grading_progress grading_progress
               |> Grade.set_user_id sub in
             perform (put_grade_call sc None) (put_grade ags sc None));;
        ret (Plain (JsonResponse (VDict
          (<["success" := VBool true]>
          (<["result" := dict_get result "body"]> ∅))))))
       (λ e,
          match e with
          | LtiServiceException str_e =>
              Some (ret (Plain (JsonResponse (VDict
                (<["success" := VBool false]>
                (<["result" := VStr str_e]> ∅))))))
          | _ => None
          end))%M.

(** [View.dispatch], inherited. *)
Definition super_dispatch (self : view) (message_launch : MessageLaunch)
    : M view_response :=
  View_dispatch default_http_method_names
    None (Some (post self message_launch))
    View_options http_method_not_allowed (method (request self)).

Definition dispatch : view → M view_response :=
  LTIView.dispatch (CachedLTIView.get_message_launch get_launch_id) super_dispatch.

End SetScoreView.

Module ScoreboardView.

Definition template_name : string := "scoreboard.html".

(** The loop over the members that sets the ['teacher'] and ['student']
    flags of each. *)
Fixpoint set_role_flags (roles : Roles) (members : list (gmap string val))
    : result (list (gmap string val)) :=
  match members with
  | [] => Ok []
  | m :: members =>
      (r <- dict_item m "roles";;
       let data := VDict {[ ROLES := r ]} in
       teacher <- TeacherRole_check roles data;;
       let m := <["teacher" := VBool teacher]> m in
       student <- StudentRole_check roles data;;
       let m := <["student" := VBool student]> m in
       members <- set_role_flags roles members;;
       Ok (m :: members))%R
  end.

(** [{m['user_id']: m for m in members}].  The dict holds the member
    objects themselves, not copies: a member is given by its position in
    [members], and [i] is the position of the first of [members]. *)
Fixpoint member_by_user_from (members : list (gmap string val)) (i : nat)
    (member_by_user : gmap hkey nat) : result (gmap hkey nat) :=
  match members with
  | [] => Ok member_by_user
  | m :: members =>
      (user_id <- dict_item m "user_id";;
       key <- hash user_id;;
       member_by_user_from members (S i) (<[key := i]> member_by_user))%R
  end.

(** The loop over the scores: [member_by_user[s['userId']]['score'] = s]
    changes the member object that the dict holds for the user. *)
Fixpoint set_scores (member_by_user : gmap hkey nat) (scores : list (gmap string val))
    (members : list (gmap string val)) : result (list (gmap string val)) :=
  match scores with
  | [] => Ok members
  | s :: scores =>
      (userId <- dict_item s "userId";;
       key <- hash userId;;
       match member_by_user !! key with
       | Some i =>
           set_scores member_by_user scores
             (alter (λ m, <["score" := VDict s]> m) i members)
       | None => Raise (KeyError userId)
       end)%R
  end.

(** Lines 323 to 325: the scores joined onto the members. *)
Definition join (members scores : list (gmap string val))
    : result (list (gmap string val)) :=
  (member_by_user <- member_by_user_from members 0 ∅;;
   set_scores member_by_user scores members)%R.

(** [ctx['members']] is the list of member objects, so it shows what the
    loops after the assignment do to them. *)
Definition get_context_data (self : view) (message_launch : MessageLaunch)
    : M context_object :=
  let ctx := ContextMixin_get_context_data "ScoreboardView" (kwargs self) in
  (resource_link_id <-
     lift (attr_get (dict_get_default (get_launch_data message_launch)
                       RESOURCE_LINK (VDict ∅)) "id");;
   if negb (has_nrps message_launch) then
     ret (NotADict (HttpResponseForbidden "Don't have names and roles!"))
   else if negb (has_ags message_launch) then
     ret (NotADict (HttpResponseForbidden "Don't have grades!"))
   else
     let ags := get_ags message_launch in
     scores <-
       (if can_create_lineitem ags then
          let score_line_item := LineItem.new
            |> LineItem.set_tag "score"
            |> LineItem.set_score_maximum 100
            |> LineItem.set_label "Score" in
          let score_line_item :=
            if truthy resource_link_id
            then score_line_item |> LineItem.set_resource_id resource_link_id
            else score_line_item in
          score_line_item <-
            perform (find_or_create_lineitem_call score_line_item)
              (find_or_create_lineitem ags score_line_item);;
          perform (get_grades_call (Some score_line_item))
            (get_grades ags (Some score_line_item))
        else
          perform (get_grades_call None) (get_grades ags None));;
     members <- perform get_members_call (get_members (get_nrps message_launch));;
     members <- lift (set_role_flags (roles self) members);;
     members <- lift (join members scores);;
     let ctx := <["members" := VList (VDict <$> members)]> ctx in
     ret (Context ctx))%M.

(** [TemplateView.get], inherited. *)
Definition get (self : view) (message_launch : MessageLaunch) : M view_response :=
  TemplateView_get (get_context_data self message_launch)
    (render_to_response (ret [template_name])).

(** [View.dispatch], inherited. *)
Definition super_dispatch (self : view) (message_launch : MessageLaunch)
    : M view_response :=
  View_dispatch default_http_method_names
    (Some (get self message_launch)) None
    View_options http_method_not_allowed (method (request self)).

Definition dispatch : view → M view_response :=
  LTIView.dispatch (CachedLTIView.get_message_launch CachedLTIView.get_launch_id) super_dispatch.

End ScoreboardView.

Module DynamicRegistration.

Definition client_name : string := PAGE_TITLE.
Definition description : string := PAGE_DESCRIPTION.

Definition get_claims : list string := ["iss"; "sub"; "name"].

Definition get_scopes : list string :=
  [ "https://purl.imsglobal.org/spec/lti-nrps/scope/contextmembership.readonly";
    "https://purl.imsglobal.org/spec/lti-ags/scope/lineitem";
    "https://purl.imsglobal.org/spec/lti-ags/scope/result.readonly";
    "https://purl.imsglobal.org/spec/lti-ags/scope/score" ].

Definition get_messages (request : HttpRequest) : result (list (gmap string val)) :=
  (path <- urls.reverse "game-launch";;
   Ok [ {[ "type" := VStr "LtiDeepLinkingRequest";
           "target_link_uri" := VStr (build_absolute_uri request path);
           "label" := VStr "New tool link" ]} ])%R.

End DynamicRegistration.

(** * The tool as a whole: the routed views and the cache between requests *)

(** The views above, by the names of their routes in urls.py. *)
Inductive target :=
  | game_launch
  | launch_data
  | game_complete_deep_link
  | game_api_set_score
  | scoreboard.

Definition as_view (t : target) : view → M view_response :=
  match t with
  | game_launch => LaunchView.dispatch
  | launch_data => LaunchDataView.dispatch
  | game_complete_deep_link => CompleteDeepLinkView.dispatch
  | game_api_set_score => SetScoreView.dispatch
  | scoreboard => ScoreboardView.dispatch
  end.

(** The views that derive from [CachedLTIView]. *)
Definition cached (t : target) : bool :=
  match t with
  | game_launch => false
  | _ => true
  end.

(** [self.get_launch_id] of a cached view, by the class of the view. *)
Definition get_launch_id_of (t : target) : view → result (option string) :=
  match t with
  | game_api_set_score => SetScoreView.get_launch_id
  | _ => CachedLTIView.get_launch_id
  end.

(** [super().dispatch] of a view, by the class of the view. *)
Definition super_dispatch_of (t : target) : view → MessageLaunch → M view_response :=
  match t with
  | game_launch => LaunchView.super_dispatch
  | launch_data => LaunchDataView.super_dispatch
  | game_complete_deep_link => CompleteDeepLinkView.super_dispatch
  | game_api_set_score => SetScoreView.super_dispatch
  | scoreboard => ScoreboardView.super_dispatch
  end.

(** A request served: the view is called and the framework finishes its
    response. *)
Definition serve (t : target) (self : view) : M response :=
  (r <- as_view t self;; lift (finish r))%M.

Definition with_storage (st : gmap string MessageLaunch) (self : view) : view :=
  {| request := request self;
     kwargs := kwargs self;
     launch_data_storage := st;
     message_launch_cls := message_launch_cls self;
     roles := roles self;
     utcnow_isoformat := utcnow_isoformat self |}.

(** One request on the cache as it stands: the cache afterwards. *)
Definition step (st : gmap string MessageLaunch) (r : target * view)
    : gmap string MessageLaunch :=
  DjangoMessageLaunch.storage_after (calls (serve r.1 (with_storage st r.2))) st.

(** The cache after a sequence of requests. *)
Definition run (rs : list (target * view)) (st : gmap string MessageLaunch)
    : gmap string MessageLaunch :=
  foldl step st rs.

(** A request mints a launch under an id: it is a request to the launch
    view, the launch is the one the library reads from it and carries the
    id, and the validation of the launch passes. *)
Definition mints (r : target * view) (i : string) (launch : MessageLaunch) : Prop :=
  r.1 = game_launch
  ∧ launch = message_launch_cls r.2 (request r.2)
  ∧ i = get_launch_id launch
  ∧ outcome (DjangoMessageLaunch.validate
               ExtendedDjangoMessageLaunch.validate_nonce launch) = Ok launch.

(** * Notions of the specification *)

Definition AGS_ENDPOINT : string :=
  "https://purl.imsglobal.org/spec/lti-ags/claim/endpoint".

(** A line item that, in the words of the comment of [SetScoreView], already
    exists and has been included in the launch data: the grade-service claim
    of the launch data names it under ['lineitem']. *)
Definition lineitem_in_launch_data (message_launch : MessageLaunch) : bool :=
  match get_launch_data message_launch !! AGS_ENDPOINT with
  | Some (VDict endpoint) => bool_decide (is_Some (endpoint !! "lineitem"))
  | _ => false
  end.

(** The grade that the score view submits for a score. *)
Definition grade_of (self : view) (message_launch : MessageLaunch) (score : Z) : Grade.t :=
  {| Grade.score_given := Some score;
     Grade.score_maximum := Some 100;
     Grade.timestamp := Some (utcnow_isoformat self ++ "Z");
     Grade.activity_progress :=
       QueryDict_get (POST (request self)) "activity-progress" None;
     Grade.grading_progress :=
       QueryDict_get (POST (request self)) "grading-progress" None;
     Grade.user_id := dict_get (get_launch_data message_launch) "sub" |}.

(** The line item of the scores, for the id of the resource link read from
    the launch data. *)
Definition score_line_item_of (resource_link_id : val) : LineItem.t :=
  {| LineItem.tag := Some "score";
     LineItem.score_maximum := Some 100;
     LineItem.label := Some "Score";
     LineItem.resource_id :=
       if truthy resource_link_id then resource_link_id else VNone |}.

(** The key under which a dict holds a value, when the value can be a
    key. *)
Definition key_of (v : option val) : option hkey :=
  v ≫= λ v, match hash v with Ok k => Some k | Raise _ => None end.

(** The key of a roster member: its ['user_id']; and the key of a score
    entry: its ['userId']. *)
Definition user_key (m : gmap string val) : option hkey := key_of (m !! "user_id").
Definition score_key (s : gmap string val) : option hkey := key_of (s !! "userId").

(** The position of the last member with a key. *)
Fixpoint last_pos (k : hkey) (members : list (gmap string val)) : option nat :=
  match members with
  | [] => None
  | m :: members =>
      match last_pos k members with
      | Some j => Some (S j)
      | None => if decide (user_key m = Some k) then Some 0%nat else None
      end
  end.

(** A member with a score entry set, or left as it is. *)
Definition scored (s : option (gmap string val)) (m : gmap string val)
    : gmap string val :=
  match s with
  | Some s => <["score" := VDict s]> m
  | None => m
  end.

(** The scores that the scoreboard fetches from the grade service, for the id
    of the resource link read from the launch data. *)
Definition fetched_scores (ags : AssignmentsGradesService) (resource_link_id : val)
    : result (list (gmap string val)) :=
  if can_create_lineitem ags then
    match find_or_create_lineitem ags (score_line_item_of resource_link_id) with
    | Ok score_line_item => get_grades ags (Some score_line_item)
    | Raise e => Raise e
    end
  else get_grades ags None.

(** The launches that a sequence of calls saves to the cache. *)
Definition saves (cs : list call) : list (string * MessageLaunch) :=
  omap (λ c, match c with
             | save_launch_data_call i launch => Some (i, launch)
             | _ => None
             end) cs.

(** * Sample requests and launches *)

Module sample.

Definition alice : gmap string val :=
  {[ "user_id" := VStr "u-alice"; "name" := VStr "Alice";
     "roles" := VList [VStr "Instructor"] ]}.
Definition bob : gmap string val :=
  {[ "user_id" := VStr "u-bob"; "name" := VStr "Bob";
     "roles" := VList [VStr "Learner"] ]}.
Definition carol : gmap string val :=
  {[ "user_id" := VStr "u-carol"; "name" := VStr "Carol";
     "roles" := VList [VStr "Learner"] ]}.

Definition score_of (user : string) (score : Z) : gmap string val :=
  {[ "userId" := VStr user; "resultScore" := VInt score;
     "resultMaximum" := VInt 100 ]}.

Definition nrps : NamesRolesProvisioningService :=
  {| get_members := Ok [alice; bob; carol] |}.

(** A grade service that accepts or refuses the grades, and knows the given
    scores. *)
Definition ags (can_create : bool) (accepts : bool)
    (scores : list (gmap string val)) : AssignmentsGradesService :=
  {| can_create_lineitem := can_create;
     put_grade := λ _ _,
       if accepts then Ok {[ "body" := VStr "saved" ]}
       else Raise (LtiServiceException "HTTP response [https://lms.example/scores]: 500 - no");
     find_or_create_lineitem := λ line_item, Ok line_item;
     get_grades := λ _, Ok scores |}.

Definition deep_link : DeepLink :=
  {| output_response_form := λ _, Ok "<form></form>" |}.

(** Launch data with the id of the resource link, and the grade-service
    claim with its scopes and with the line item of the launch when there is
    one. *)
Definition data (resource_link_id : string) (scope : list string)
    (lineitem : option string) : gmap string val :=
  let endpoint : gmap string val :=
    {[ "scope" := VList (VStr <$> scope);
       "lineitems" := VStr "https://lms.example/lineitems" ]} in
  {[ "sub" := VStr "u-bob";
     "name" := VStr "Bob";
     RESOURCE_LINK := VDict {[ "id" := VStr resource_link_id ]};
     AGS_ENDPOINT :=
       VDict (match lineitem with
              | Some url => <["lineitem" := VStr url]> endpoint
              | None => endpoint
              end) ]}.

Definition score_scope_only : list string :=
  ["https://purl.imsglobal.org/spec/lti-ags/scope/score"].

Definition launch (iss : string) (deep_link_launch teacher assistant student : bool)
    (with_ags with_nrps : bool) (launch_data : gmap string val)
    (service : AssignmentsGradesService) (nonce : option exn) : MessageLaunch :=
  {| get_iss := iss;
     is_deep_link_launch := deep_link_launch;
     check_teacher_access := teacher;
     check_teaching_assistant_access := assistant;
     check_student_access := student;
     get_launch_data := launch_data;
     get_launch_id := "lti1p3-launch-0001";
     has_ags := with_ags;
     has_nrps := with_nrps;
     get_ags := service;
     get_nrps := nrps;
     get_deep_link := deep_link;
     validation_before_nonce := None;
     library_nonce_validation := nonce;
     validation_after_nonce := None |}.

Definition student_launch : MessageLaunch :=
  launch "https://lms.example" false false false true true true
    (data "rl-1" DynamicRegistration.get_scopes None)
    (ags true true [score_of "u-alice" 70; score_of "u-bob" 85]) None.

Definition has_role (role : string) (data : val) : bool :=
  match data with
  | VDict d =>
      match d !! ROLES with
      | Some (VList l) =>
          existsb (λ v, match v with VStr s => String.eqb s role | _ => false end) l
      | _ => false
      end
  | _ => false
  end.

Definition role_classes : Roles :=
  {| TeacherRole_check := λ data, Ok (has_role "Instructor" data);
     StudentRole_check := λ data, Ok (has_role "Learner" data) |}.

Definition a_request (m : http.method) (post : gmap string (list string)) : HttpRequest :=
  {| method := m; POST := post; GET := ∅; scheme_host := "https://tool.example" |}.

Definition a_view (m : http.method) (post : gmap string (list string))
    (url_kwargs : gmap string string) (storage : gmap string MessageLaunch)
    (incoming : MessageLaunch) : view :=
  {| request := a_request m post;
     kwargs := url_kwargs;
     launch_data_storage := storage;
     message_launch_cls := λ _, incoming;
     roles := role_classes;
     utcnow_isoformat := "2024-05-01T10:00:00.000000" |}.

(** A launch whose data name a line item, with the scope to create line
    items and a grade service that can create them. *)
Definition launch_with_lineitem : MessageLaunch :=
  launch "https://lms.example" false false false true true true
    (data "rl-1" DynamicRegistration.get_scopes (Some "https://lms.example/lineitems/7"))
    (ags true true []) None.

(** A launch without the roster service. *)
Definition launch_without_nrps : MessageLaunch :=
  launch "https://lms.example" false false false true true false
    (data "rl-1" DynamicRegistration.get_scopes None) (ags true true []) None.

(** A launch with a line item and without the scope to create one, whose
    grade service refuses the grades. *)
Definition launch_refused : MessageLaunch :=
  launch "https://lms.example" false false false true true true
    (data "rl-1" score_scope_only (Some "https://lms.example/lineitems/7"))
    (ags false false []) None.

Definition score_form : gmap string (list string) :=
  {[ "score" := ["85"]; "activity-progress" := ["Completed"];
     "grading-progress" := ["FullyGraded"] ]}.

End sample.

(** * The login view, and the routes with their views *)

(** The library's [DjangoOIDCLogin]: whether the check of the cookies is
    enabled, and what [redirect] answers for a target, with and without that
    check. *)
Record DjangoOIDCLogin := {
  check_cookies : bool;
  redirect_answer : bool → string → result response
}.

Definition enable_check_cookies (o : DjangoOIDCLogin) : DjangoOIDCLogin :=
  {| check_cookies := true; redirect_answer := redirect_answer o |}.

Definition redirect (o : DjangoOIDCLogin) (url : string) : result response :=
  redirect_answer o (check_cookies o) url.

Module LoginView.

Definition http_method_names : list http.method := [http.POST; http.GET].

Definition get_launch_url (self : view) : result string :=
  let target_link_uri :=
    QueryDict_get (POST (request self)) "target_link_uri"
      (QueryDict_get (GET (request self)) "target_link_uri" None) in
  match target_link_uri with
  | Some uri =>
      if negb (truthy (VStr uri)) then
        Raise (Exception ("Missing " ++ quote ++ "target_link_uri" ++ quote ++ " param"))
      else Ok uri
  | None =>
      Raise (Exception ("Missing " ++ quote ++ "target_link_uri" ++ quote ++ " param"))
  end.

(** [dispatch] of the login view replaces the one of [LTIView] and of
    [View]: it is given the login object that the library builds for the
    request. *)
Definition dispatch (new_oidc_login : HttpRequest → DjangoOIDCLogin) (self : view)
    : result response :=
  let oidc_login := new_oidc_login (request self) in
  (target_link_uri <- get_launch_url self;;
   redirect (enable_check_cookies oidc_login) target_link_uri)%R.

End LoginView.

Module resolver.

(** The view of each route of [urls.urlpatterns], in the order of the
    routes: the admin site, a view embedded above, or another view. *)
Inductive routed :=
  | admin_site
  | embedded (t : target)
  | other (name : string).

Definition views : list routed :=
  [ admin_site; other "LoginView"; other "register"; embedded game_launch;
    other "JWKSView"; embedded game_complete_deep_link;
    embedded game_api_set_score; embedded scoreboard; embedded launch_data ].

Fixpoint strip_prefix (p s : string) : option string :=
  match p, s with
  | EmptyString, _ => Some s
  | String a p, String b s => if bool_decide (a = b) then strip_prefix p s else None
  | String _ _, EmptyString => None
  end.

(** The characters of [[\w-]], among the ASCII characters. *)
Definition is_id_char (c : ascii) : bool :=
  let n := nat_of_ascii c in
  ((48 <=? n) && (n <=? 57) || (65 <=? n) && (n <=? 90)
   || (97 <=? n) && (n <=? 122) || (n =? 95) || (n =? 45))%nat.

(** The longest run of such characters at the start of a string, and what
    follows it. *)
Fixpoint take_id (s : string) : string * string :=
  match s with
  | String c s' =>
      if is_id_char c then let (id, rest) := take_id s' in (String c id, rest)
      else (EmptyString, s)
  | EmptyString => (EmptyString, EmptyString)
  end.

(** A string of such characters. *)
Fixpoint is_id (s : string) : bool :=
  match s with
  | String c s' => is_id_char c && is_id s'
  | EmptyString => true
  end.

(** A match of [(?P<launch_id>[\w-]+)/$]: the [$] also matches before a
    last line break. *)
Definition match_launch_id (s : string) : option string :=
  let (id, rest) := take_id s in
  if negb (String.eqb id "")
     && (String.eqb rest "/" || String.eqb rest (String "/" (String "010" "")))
  then Some id else None.

(** The keyword arguments of a route on a path, when the route matches: the
    admin site takes every path under its prefix, a [path] route the path
    that is its own, a [re_path] route the paths that its pattern
    matches. *)
Definition route_match (r : urls.route) (v : routed) (path : string)
    : option (gmap string string) :=
  match r, v with
  | urls.path prefix, admin_site =>
      match strip_prefix prefix path with
      | Some _ => Some ∅
      | None => None
      end
  | urls.path route, _ => if String.eqb route path then Some ∅ else None
  | urls.re_path_launch_id prefix, _ =>
      match strip_prefix prefix path with
      | Some rest =>
          match match_launch_id rest with
          | Some id => Some {[ "launch_id" := id ]}
          | None => None
          end
      | None => None
      end
  end.

Fixpoint first_match (patterns : list ((urls.route * option string) * routed))
    (path : string) : option (routed * gmap string string) :=
  match patterns with
  | [] => None
  | (r, _, v) :: patterns =>
      match route_match r v path with
      | Some kwargs => Some (v, kwargs)
      | None => first_match patterns path
      end
  end.

(** The view and the keyword arguments for the path of a URL: the first
    route that matches the path after its leading slash. *)
Definition resolve (url_path : string) : option (routed * gmap string string) :=
  match strip_prefix "/" url_path with
  | Some path => first_match (zip urls.urlpatterns views) path
  | None => None
  end.

End resolver.

(** The grades that a sequence of calls submits. *)
Definition submissions (cs : list call) : list (Grade.t * option LineItem.t) :=
  omap (λ c, match c with
             | put_grade_call sc line_item => Some (sc, line_item)
             | _ => None
             end) cs.

(** The methods for which a view has a handler that [View.dispatch]
    reaches. *)
Definition handles (t : target) (m : http.method) : bool :=
  match t with
  | game_launch | game_complete_deep_link => bool_decide (m = http.POST)
  | game_api_set_score => bool_decide (m ∈ [http.POST; http.OPTIONS])
  | launch_data | scoreboard => bool_decide (m ∈ [http.GET; http.HEAD; http.OPTIONS])
  end.

(** * Properties *)

Import DjangoMessageLaunch.
Local Open Scope list_scope.

(** ** The effects *)

Lemma outcome_bind_ok {A B} (m : M A) (f : A → M B) (a : A) :
  outcome m = Ok a → outcome (bind m f) = outcome (f a).
Proof.
  destruct m as [t [a'|e]]; unfold outcome, bind; cbn; intros H; [|discriminate].
  injection H as ->. by destruct (f a).
Qed.

Lemma outcome_bind_raise {A B} (m : M A) (f : A → M B) (e : exn) :
  outcome m = Raise e → outcome (bind m f) = Raise e.
Proof.
  destruct m as [t [a'|e']]; unfold outcome, bind; cbn; intros H.
  - discriminate.
  - by injection H as ->.
Qed.

Lemma calls_bind_ok {A B} (m : M A) (f : A → M B) (a : A) :
  outcome m = Ok a → calls (bind m f) = (calls m ++ calls (f a))%list.
Proof.
  destruct m as [t [a'|e]]; unfold outcome, calls, bind; cbn; intros H;
    [|discriminate].
  injection H as ->. by destruct (f a).
Qed.

Lemma calls_bind_raise {A B} (m : M A) (f : A → M B) (e : exn) :
  outcome m = Raise e → calls (bind m f) = calls m.
Proof.
  destruct m as [t [a'|e']]; unfold outcome, calls, bind; cbn; intros H;
    [discriminate|reflexivity].
Qed.

Lemma bind_ret {A B} (a : A) (f : A → M B) : bind (ret a) f = f a.
Proof. unfold bind, ret. by destruct (f a). Qed.

Lemma bind_lift_ok {A B} (a : A) (f : A → M B) : bind (lift (Ok a)) f = f a.
Proof. apply bind_ret. Qed.

Lemma bind_lift_raise {A B} (e : exn) (f : A → M B) :
  bind (lift (Raise e)) f = raise e.
Proof. done. Qed.

Lemma M_eta {A} (m : M A) : m = (calls m, outcome m).
Proof. by destruct m. Qed.

(** ** The launch view *)

(** C4.  On a launch POST whose context is built, the launch view answers
    with the deep-link template for a teacher or teaching assistant on a
    deep-link launch, with the teacher template for a teacher or teaching
    assistant otherwise, with the student template for a student who is
    neither, and raises a generic exception, rendering nothing, when no role
    check succeeds. *)
Theorem launch_template_by_role (self : view) (context : gmap string val) :
  let message_launch := message_launch_cls self (request self) in
  method (request self) = http.POST →
  outcome (LaunchView.get_context_data message_launch (kwargs self)) = Ok context →
  outcome (LaunchView.dispatch self) =
    match check_teacher_access message_launch
          || check_teaching_assistant_access message_launch,
          is_deep_link_launch message_launch,
          check_student_access message_launch with
    | true, true, _ => Ok (TemplateResponse ["deep_link.html"] (Context context))
    | true, false, _ => Ok (TemplateResponse ["teacher.html"] (Context context))
    | false, _, true => Ok (TemplateResponse ["student.html"] (Context context))
    | false, _, false => Raise (Exception "You have an unknown role.")
    end.
Proof.
  intros ml Hpost Hctx.
  unfold LaunchView.dispatch, LTIView.dispatch, LTIView.get_message_launch.
  rewrite bind_ret. fold ml.
  unfold LaunchView.super_dispatch, View_dispatch. rewrite Hpost. simpl.
  unfold LaunchView.post.
  rewrite (outcome_bind_ok _ _ _ Hctx).
  unfold render_to_response, LaunchView.get_template_names.
  destruct (check_teacher_access ml), (check_teaching_assistant_access ml),
    (is_deep_link_launch ml), (check_student_access ml); reflexivity.
Qed.

Lemma launch_template_by_role_witness :
  outcome (LaunchView.dispatch
             (sample.a_view http.POST ∅ ∅ ∅ sample.student_launch))
  = Ok (TemplateResponse ["student.html"]
          (Context
             (<["page_title" := VStr PAGE_TITLE]>
             (<["launch_data" :=
                  VDict (sample.data "rl-1" DynamicRegistration.get_scopes None)]>
             (<["launch_id" := VStr "lti1p3-launch-0001"]>
             (<["curr_user_name" := VStr "Bob"]>
             (<["curr_diff" := VNone]>
             (<["special_word" := VNone]>
             (<["message_type" := VNone]> ∅))))))))).
Proof.
  apply (launch_template_by_role
           (sample.a_view http.POST ∅ ∅ ∅ sample.student_launch)); reflexivity.
Defined.

(** ** The launch class *)

(** C6.  The nonce validation of the library is skipped exactly when the
    issuer is the fixed value of the test platform and the launch is a
    deep-link launch: then the launch is returned unchecked; in every other
    case the library's own nonce validation is what runs. *)
Theorem nonce_skipped_iff_test_issuer_deep_link (self : MessageLaunch) :
  let skipped := get_iss self = "http://imsglobal.org" ∧ is_deep_link_launch self = true in
  (validate_nonce_call ∉ calls (ExtendedDjangoMessageLaunch.validate_nonce self)
     ↔ skipped)
  ∧ (skipped → ExtendedDjangoMessageLaunch.validate_nonce self = ([], Ok self))
  ∧ (¬ skipped →
       ExtendedDjangoMessageLaunch.validate_nonce self
       = DjangoMessageLaunch.validate_nonce self
       ∧ calls (ExtendedDjangoMessageLaunch.validate_nonce self) = [validate_nonce_call]).
Proof.
  intros skipped. unfold skipped, ExtendedDjangoMessageLaunch.validate_nonce.
  destruct (String.eqb_spec (get_iss self) "http://imsglobal.org") as [Hiss|Hiss];
    destruct (is_deep_link_launch self) eqn:Hdeep; cbn [andb].
  - split_and!; [|done|intros []; done].
    split; [done|]. intros _. cbn. apply not_elem_of_nil.
  - split_and!; [|intros [_ ?]; done|done].
    split; [|intros [_ ?]; done].
    intros H. exfalso. apply H. cbn. apply list_elem_of_here.
  - split_and!; [|intros [? _]; done|done].
    split; [|intros [? _]; done].
    intros H. exfalso. apply H. cbn. apply list_elem_of_here.
  - split_and!; [|intros [? _]; done|done].
    split; [|intros [? _]; done].
    intros H. exfalso. apply H. cbn. apply list_elem_of_here.
Qed.

Lemma nonce_skipped_iff_test_issuer_deep_link_witness :
  let launch :=
    sample.launch "http://imsglobal.org" true true false false true true
      (sample.data "rl-1" DynamicRegistration.get_scopes None) (sample.ags true true [])
      (Some (LtiException "Invalid Nonce")) in
  ExtendedDjangoMessageLaunch.validate_nonce launch = ([], Ok launch).
Proof.
  intros launch.
  apply (nonce_skipped_iff_test_issuer_deep_link launch).
  split; reflexivity.
Defined.

(** ** The cached views *)

Lemma cached_as_view (t : target) (self : view) :
  cached t = true →
  as_view t self
  = LTIView.dispatch (CachedLTIView.get_message_launch (get_launch_id_of t))
      (super_dispatch_of t) self.
Proof. by destruct t. Qed.

(** A cached view asks the cache for the launch id, and hands what the cache
    holds to the handler. *)
Lemma cached_dispatch_load (t : target) (self : view) (i : option string) :
  cached t = true →
  get_launch_id_of t self = Ok i →
  as_view t self =
    match i ≫= (λ i, launch_data_storage self !! i) with
    | Some launch =>
        (from_cache_call i :: calls (super_dispatch_of t self launch),
         outcome (super_dispatch_of t self launch))
    | None => ([from_cache_call i], Raise (LtiException "Launch data not found"))
    end.
Proof.
  intros Hc Hi. rewrite (cached_as_view _ _ Hc).
  unfold LTIView.dispatch, CachedLTIView.get_message_launch. rewrite Hi.
  rewrite bind_lift_ok. unfold from_cache, perform.
  destruct i as [i|]; cbn; [|done].
  destruct (launch_data_storage self !! i) as [launch|]; cbn; [|done].
  by destruct (super_dispatch_of t self launch).
Qed.

(** C7.  A cached view other than the score view reads the launch id from
    the POST parameter [launch_id] when there is one, whatever the URL says,
    and from the URL otherwise; the score view reads it from the URL alone,
    whatever is posted.  The id so read is the one the cache is asked for. *)
Theorem launch_id_post_then_url (t : target) (self : view) :
  cached t = true →
  (t ≠ game_api_set_score →
     (∀ (vs : list string) (v : string),
        POST (request self) !! "launch_id" = Some (vs ++ [v])%list →
        get_launch_id_of t self = Ok (Some v))
     ∧ (POST (request self) !! "launch_id" = None →
        get_launch_id_of t self = Ok (kwargs self !! "launch_id")))
  ∧ (t = game_api_set_score →
     get_launch_id_of t self
     = match kwargs self !! "launch_id" with
       | Some i => Ok (Some i)
       | None => Raise (KeyError (VStr "launch_id"))
       end
     ∧ ∀ self', kwargs self' = kwargs self →
         get_launch_id_of t self' = get_launch_id_of t self)
  ∧ (∀ i, get_launch_id_of t self = Ok i →
       ∃ cs, calls (as_view t self) = from_cache_call i :: cs).
Proof.
  intros Hc. split_and!.
  - intros Hne.
    assert (get_launch_id_of t self = CachedLTIView.get_launch_id self) as ->
      by by destruct t.
    unfold CachedLTIView.get_launch_id, QueryDict_get, CachedLTIView.launch_id_param.
    split.
    + intros vs v ->. by rewrite last_snoc.
    + by intros ->.
  - intros ->. cbn. unfold SetScoreView.get_launch_id. split; [done|].
    by intros self' ->.
  - intros i Hi. rewrite (cached_dispatch_load _ _ _ Hc Hi).
    destruct (i ≫= _); eauto.
Qed.

Lemma launch_id_post_then_url_witness :
  get_launch_id_of scoreboard
    (sample.a_view http.POST {[ "launch_id" := ["from-post"] ]}
       {[ "launch_id" := "from-url" ]} ∅ sample.student_launch)
  = Ok (Some "from-post")
  ∧ get_launch_id_of game_api_set_score
      (sample.a_view http.POST {[ "launch_id" := ["from-post"] ]}
         {[ "launch_id" := "from-url" ]} ∅ sample.student_launch)
    = Ok (Some "from-url").
Proof.
  split.
  - eapply (launch_id_post_then_url scoreboard); [reflexivity|discriminate|].
    by instantiate (1 := []).
  - by apply (launch_id_post_then_url game_api_set_score).
Defined.

(** ** Completing a deep link *)

Lemma reverse_game_launch : urls.reverse "game-launch" = Ok "/launch/".
Proof. reflexivity. Qed.

(** C5.  On a POST to the deep-link view, a cached launch that is not a
    deep-link launch is answered with a 403 and the response builder of the
    library is not called; a deep-link launch has one resource built and
    handed, alone, to the builder, whose HTML is the response. *)
Theorem complete_deep_link_guard (self : view) (message_launch : MessageLaunch) :
  method (request self) = http.POST →
  (is_deep_link_launch message_launch = false →
     CompleteDeepLinkView.super_dispatch self message_launch
     = ([], Ok (Plain (HttpResponseForbidden "Must be a deep link!")))
     ∧ status_code (HttpResponseForbidden "Must be a deep link!") = 403)
  ∧ (is_deep_link_launch message_launch = true →
     ∃ resource,
       CompleteDeepLinkView.get_deep_link_resource self = Ok resource
       ∧ calls (CompleteDeepLinkView.super_dispatch self message_launch)
         = [output_response_form_call [resource]]
       ∧ outcome (CompleteDeepLinkView.super_dispatch self message_launch)
         = match output_response_form (get_deep_link message_launch) [resource] with
           | Ok html => Ok (Plain (HttpResponse html))
           | Raise e => Raise e
           end).
Proof.
  intros Hpost.
  unfold CompleteDeepLinkView.super_dispatch, View_dispatch. rewrite Hpost.
  cbn [bool_decide decide_rel default]. unfold CompleteDeepLinkView.post.
  split.
  - intros ->. done.
  - intros ->. cbn [negb].
    unfold CompleteDeepLinkView.get_deep_link_resource.
    rewrite reverse_game_launch. cbn [rbind].
    eexists. split; [reflexivity|].
    rewrite bind_lift_ok. unfold perform.
    destruct (output_response_form _ _); done.
Qed.

Lemma complete_deep_link_guard_witness :
  CompleteDeepLinkView.super_dispatch
    (sample.a_view http.POST {[ "special-word" := ["cat"] ]} ∅ ∅ sample.student_launch)
    sample.student_launch
  = ([], Ok (Plain (HttpResponseForbidden "Must be a deep link!"))).
Proof.
  apply (complete_deep_link_guard
           (sample.a_view http.POST {[ "special-word" := ["cat"] ]} ∅ ∅
              sample.student_launch) sample.student_launch);
    reflexivity.
Defined.

(** ** Submitting a score *)

Lemma score_view_calls (self : view) (message_launch : MessageLaunch)
    (resource_link_id : val) (score : Z) :
  has_ags message_launch = true →
  attr_get (dict_get_default (get_launch_data message_launch)
              RESOURCE_LINK (VDict ∅)) "id" = Ok resource_link_id →
  int (QueryDict_get (POST (request self)) "score" None) = Ok score →
  calls (SetScoreView.post self message_launch) =
    if can_create_lineitem (get_ags message_launch) then
      [print "Create lineitem";
       put_grade_call (grade_of self message_launch score)
         (Some (score_line_item_of resource_link_id))]
    else
      [print "No line item";
       put_grade_call (grade_of self message_launch score) None].
Proof.
  intros Hags Hrl Hscore. unfold SetScoreView.post.
  rewrite Hrl, bind_lift_ok, Hags. cbn [negb].
  rewrite Hscore, bind_lift_ok.
  unfold score_line_item_of, grade_of.
  destruct (can_create_lineitem (get_ags message_launch)).
  - destruct (truthy resource_link_id);
      cbn; destruct (put_grade _ _ _) as [?|[]]; reflexivity.
  - cbn; destruct (put_grade _ _ _) as [?|[]]; reflexivity.
Qed.

Lemma score_view_outcome (self : view) (message_launch : MessageLaunch)
    (resource_link_id : val) (score : Z) :
  has_ags message_launch = true →
  attr_get (dict_get_default (get_launch_data message_launch)
              RESOURCE_LINK (VDict ∅)) "id" = Ok resource_link_id →
  int (QueryDict_get (POST (request self)) "score" None) = Ok score →
  outcome (SetScoreView.post self message_launch) =
    match put_grade (get_ags message_launch) (grade_of self message_launch score)
            (if can_create_lineitem (get_ags message_launch)
             then Some (score_line_item_of resource_link_id) else None) with
    | Ok result =>
        Ok (Plain (JsonResponse (VDict (<["success" := VBool true]>
                                        (<["result" := dict_get result "body"]> ∅)))))
    | Raise (LtiServiceException msg) =>
        Ok (Plain (JsonResponse (VDict (<["success" := VBool false]>
                                        (<["result" := VStr msg]> ∅)))))
    | Raise e => Raise e
    end.
Proof.
  intros Hags Hrl Hscore. unfold SetScoreView.post.
  rewrite Hrl, bind_lift_ok, Hags. cbn [negb].
  rewrite Hscore, bind_lift_ok.
  unfold score_line_item_of, grade_of.
  destruct (can_create_lineitem (get_ags message_launch)).
  - destruct (truthy resource_link_id);
      cbn; destruct (put_grade _ _ _) as [?|[]]; reflexivity.
  - cbn; destruct (put_grade _ _ _) as [?|[]]; reflexivity.
Qed.

(** The score view calls nothing before it has found the grade service, the
    resource link and the score. *)
Lemma score_view_reaches (self : view) (message_launch : MessageLaunch) (c : call) :
  c ∈ calls (SetScoreView.post self message_launch) →
  ∃ resource_link_id score,
    has_ags message_launch = true
    ∧ attr_get (dict_get_default (get_launch_data message_launch)
                  RESOURCE_LINK (VDict ∅)) "id" = Ok resource_link_id
    ∧ int (QueryDict_get (POST (request self)) "score" None) = Ok score.
Proof.
  unfold SetScoreView.post.
  destruct (attr_get _ _) as [rl|e]; [rewrite bind_lift_ok|by intros ?%elem_of_nil].
  destruct (has_ags message_launch); cbn [negb]; [|by intros ?%elem_of_nil].
  destruct (int _) as [score|e]; [|by intros ?%elem_of_nil].
  eauto.
Qed.

(** C1, as the code has it.  With a grade service, a readable resource link
    and a score that parses, the score view submits one grade of maximum
    100: together with a line item tagged "score", of maximum 100 and
    labelled "Score", whose resource id is the id of the resource link when
    that id is set and not empty, if the grade service says that it can
    create line items; and alone, with no line item, if it says that it
    cannot. *)
Theorem score_submitted_by_capability (self : view) (message_launch : MessageLaunch)
    (resource_link_id : val) (score : Z) :
  has_ags message_launch = true →
  attr_get (dict_get_default (get_launch_data message_launch)
              RESOURCE_LINK (VDict ∅)) "id" = Ok resource_link_id →
  int (QueryDict_get (POST (request self)) "score" None) = Ok score →
  let sc := grade_of self message_launch score in
  let sc_line_item := score_line_item_of resource_link_id in
  (can_create_lineitem (get_ags message_launch) = true →
     calls (SetScoreView.post self message_launch)
     = [print "Create lineitem"; put_grade_call sc (Some sc_line_item)]
     ∧ LineItem.tag sc_line_item = Some "score"
     ∧ LineItem.score_maximum sc_line_item = Some 100
     ∧ LineItem.label sc_line_item = Some "Score"
     ∧ (truthy resource_link_id = true →
          LineItem.resource_id sc_line_item = resource_link_id))
  ∧ (can_create_lineitem (get_ags message_launch) = false →
     calls (SetScoreView.post self message_launch)
     = [print "No line item"; put_grade_call sc None])
  ∧ Grade.score_given sc = Some score
  ∧ Grade.score_maximum sc = Some 100.
Proof.
  intros Hags Hrl Hscore sc sc_line_item.
  rewrite (score_view_calls _ _ _ _ Hags Hrl Hscore).
  split_and!; try done.
  - intros ->. split_and!; try done.
    unfold sc_line_item, score_line_item_of. cbn. by intros ->.
  - by intros ->.
Qed.

Lemma score_submitted_by_capability_witness :
  calls (SetScoreView.post
           (sample.a_view http.POST sample.score_form ∅ ∅ sample.launch_refused)
           sample.launch_refused)
  = [print "No line item";
     put_grade_call
       (grade_of (sample.a_view http.POST sample.score_form ∅ ∅ sample.launch_refused)
          sample.launch_refused 85)
       None].
Proof.
  apply (score_submitted_by_capability
           (sample.a_view http.POST sample.score_form ∅ ∅ sample.launch_refused)
           sample.launch_refused (VStr "rl-1") 85);
    reflexivity.
Defined.

(** C1, as stated, fails: the launch data name an existing line item, and
    the score view, whose grade service can create line items, still submits
    the grade together with a line item it has built. *)
Lemma score_sent_with_lineitem_although_one_exists :
  let self := sample.a_view http.POST sample.score_form ∅ ∅ sample.launch_with_lineitem in
  has_ags sample.launch_with_lineitem = true
  ∧ lineitem_in_launch_data sample.launch_with_lineitem = true
  ∧ calls (SetScoreView.post self sample.launch_with_lineitem)
    = [print "Create lineitem";
       put_grade_call (grade_of self sample.launch_with_lineitem 85)
         (Some (score_line_item_of (VStr "rl-1")))].
Proof. split_and!; reflexivity. Qed.

(** C3.  When the call of the grade service made by the score view raises
    the service exception, the view answers with a JSON response of status
    200 whose body holds a false success flag and the string of the
    exception; the framework sends that response as it is. *)
Theorem score_service_failure_is_reported (self : view) (message_launch : MessageLaunch)
    (sc : Grade.t) (line_item : option LineItem.t) (msg : string) :
  put_grade_call sc line_item ∈ calls (SetScoreView.post self message_launch) →
  put_grade (get_ags message_launch) sc line_item = Raise (LtiServiceException msg) →
  ∃ r,
    outcome (SetScoreView.post self message_launch) = Ok (Plain r)
    ∧ finish (Plain r) = Ok r
    ∧ status_code r = 200
    ∧ body r = Json (VDict (<["success" := VBool false]>
                            (<["result" := VStr msg]> ∅))).
Proof.
  intros Hin Hraise.
  destruct (score_view_reaches _ _ _ Hin) as (rl & score & Hags & Hrl & Hscore).
  rewrite (score_view_outcome _ _ _ _ Hags Hrl Hscore).
  rewrite (score_view_calls _ _ _ _ Hags Hrl Hscore) in Hin.
  destruct (can_create_lineitem (get_ags message_launch));
    apply elem_of_cons in Hin as [Hin|Hin]; try discriminate;
    apply list_elem_of_singleton in Hin; injection Hin as -> ->;
    rewrite Hraise; eauto 10.
Qed.

Lemma score_service_failure_is_reported_witness :
  ∃ r,
    outcome (SetScoreView.post
               (sample.a_view http.POST sample.score_form ∅ ∅ sample.launch_refused)
               sample.launch_refused) = Ok (Plain r)
    ∧ finish (Plain r) = Ok r
    ∧ status_code r = 200
    ∧ body r = Json (VDict (<["success" := VBool false]>
                            (<["result" :=
                                 VStr "HTTP response [https://lms.example/scores]: 500 - no"]> ∅))).
Proof.
  apply (score_service_failure_is_reported
           (sample.a_view http.POST sample.score_form ∅ ∅ sample.launch_refused)
           sample.launch_refused
           (grade_of (sample.a_view http.POST sample.score_form ∅ ∅ sample.launch_refused)
              sample.launch_refused 85)
           None).
  - vm_compute. apply list_elem_of_further, list_elem_of_here.
  - reflexivity.
Defined.

(** ** The scoreboard *)

(** A launch without the roster service or without the grade service makes
    [get_context_data] hand back the 403 response as the context, and the
    framework takes it for the context of the scoreboard template. *)
Lemma scoreboard_forbidden_is_context (self : view) (message_launch : MessageLaunch)
    (resource_link_id : val) :
  attr_get (dict_get_default (get_launch_data message_launch)
              RESOURCE_LINK (VDict ∅)) "id" = Ok resource_link_id →
  has_nrps message_launch = false ∨ has_ags message_launch = false →
  ∃ msg,
    ScoreboardView.get self message_launch
    = ([], Ok (TemplateResponse ["scoreboard.html"]
                 (NotADict (HttpResponseForbidden msg))))
    ∧ finish (TemplateResponse ["scoreboard.html"]
                (NotADict (HttpResponseForbidden msg)))
      = Raise (TypeError "context must be a dict rather than HttpResponseForbidden.").
Proof.
  intros Hrl H.
  unfold ScoreboardView.get, TemplateView_get, ScoreboardView.get_context_data.
  rewrite Hrl, bind_lift_ok.
  destruct (has_nrps message_launch); cbn [negb].
  - destruct H as [H|H]; [done|]. rewrite H. cbn [negb]. eauto.
  - eauto.
Qed.

(** C2, on the code.  A GET of the scoreboard for a cached launch without
    the roster service does not end in a 403: the view returns a template
    response whose context is the 403 response, and finishing it raises a
    type error. *)
Theorem scoreboard_without_roster_is_not_forbidden :
  let self :=
    sample.a_view http.GET ∅ {[ "launch_id" := "lti1p3-launch-0001" ]}
      {[ "lti1p3-launch-0001" := sample.launch_without_nrps ]}
      sample.launch_without_nrps in
  has_nrps sample.launch_without_nrps = false
  ∧ outcome (as_view scoreboard self)
    = Ok (TemplateResponse ["scoreboard.html"]
            (NotADict (HttpResponseForbidden "Don't have names and roles!")))
  ∧ serve scoreboard self
    = ([from_cache_call (Some "lti1p3-launch-0001")],
       Raise (TypeError "context must be a dict rather than HttpResponseForbidden.")).
Proof. split_and!; reflexivity. Qed.

(** ** The cache *)

Lemma saves_app (cs cs' : list call) : saves (cs ++ cs') = saves cs ++ saves cs'.
Proof. apply omap_app. Qed.

Lemma no_saves_bind {A B} (m : M A) (f : A → M B) :
  saves (calls m) = [] → (∀ a, saves (calls (f a)) = []) →
  saves (calls (bind m f)) = [].
Proof.
  intros Hm Hf. destruct (outcome m) as [a|e] eqn:Ho.
  - rewrite (calls_bind_ok _ _ _ Ho), saves_app, Hm, Hf. done.
  - by rewrite (calls_bind_raise _ _ _ Ho).
Qed.

Lemma no_saves_try_except {A} (m : M A) (handler : exn → option (M A)) :
  saves (calls m) = [] → (∀ e h, handler e = Some h → saves (calls h) = []) →
  saves (calls (try_except m handler)) = [].
Proof.
  intros Hm Hh. destruct m as [t [a|e]]; unfold try_except; [exact Hm|].
  destruct (handler e) as [[t' r]|] eqn:He; [|exact Hm].
  change (saves (t ++ t') = []). change (saves t = []) in Hm.
  rewrite saves_app, Hm. apply (Hh _ _ He).
Qed.

Ltac no_saves :=
  repeat first
    [ reflexivity
    | apply no_saves_bind; [|intros ?]
    | apply no_saves_try_except;
        [|let e := fresh "e" in let He := fresh "He" in
          intros e ? He; destruct e; try discriminate He; injection He as <-]
    | match goal with
      | |- context [if ?b then _ else _] => destruct b
      | |- context [match ?x with _ => _ end] => destruct x
      end ].

(** A cached view saves nothing to the cache. *)
Lemma cached_view_saves_nothing (t : target) (self : view) :
  cached t = true → saves (calls (serve t self)) = [].
Proof.
  intros Hc. unfold serve. apply no_saves_bind; [|done].
  rewrite (cached_as_view _ _ Hc).
  unfold LTIView.dispatch, CachedLTIView.get_message_launch.
  apply no_saves_bind.
  { apply no_saves_bind; [done|]. intros i. by apply no_saves_bind. }
  intros launch. destruct t; [done|..]; cbn [super_dispatch_of].
  - unfold LaunchDataView.super_dispatch, View_dispatch. no_saves.
  - unfold CompleteDeepLinkView.super_dispatch, View_dispatch,
      CompleteDeepLinkView.post. no_saves.
  - unfold SetScoreView.super_dispatch, View_dispatch, SetScoreView.post. no_saves.
  - unfold ScoreboardView.super_dispatch, View_dispatch, ScoreboardView.get,
      TemplateView_get, ScoreboardView.get_context_data, render_to_response.
    no_saves.
Qed.

Lemma saves_bind {A B} (m : M A) (f : A → M B) :
  saves (calls (bind m f))
  = saves (calls m)
    ++ match outcome m with Ok a => saves (calls (f a)) | Raise _ => [] end.
Proof.
  destruct (outcome m) as [a|e] eqn:Ho.
  - by rewrite (calls_bind_ok _ _ _ Ho), saves_app.
  - by rewrite (calls_bind_raise _ _ _ Ho), app_nil_r.
Qed.

(** The validation saves the launch it has validated, under the id of the
    launch, and saves nothing when it fails. *)
Lemma validate_saves (launch : MessageLaunch) :
  let m := validate ExtendedDjangoMessageLaunch.validate_nonce launch in
  (outcome m = Ok launch ∧ saves (calls m) = [(get_launch_id launch, launch)])
  ∨ ((∃ e, outcome m = Raise e) ∧ saves (calls m) = []).
Proof.
  unfold validate, ExtendedDjangoMessageLaunch.validate_nonce,
    DjangoMessageLaunch.validate_nonce, passes.
  destruct (validation_before_nonce launch); [right; eauto|].
  destruct (String.eqb _ _ && _), (library_nonce_validation launch),
    (validation_after_nonce launch); cbn; eauto.
Qed.

(** What the launch view saves is the launch of the request, validated. *)
Lemma launch_view_saves (self : view) (x : string * MessageLaunch) :
  x ∈ saves (calls (serve game_launch self)) → mints (game_launch, self) x.1 x.2.
Proof.
  unfold serve. rewrite saves_bind.
  assert (∀ r : result view_response,
            match r with
            | Ok a => saves (calls (lift (finish a)))
            | Raise _ => []
            end = []) as -> by by intros [].
  rewrite app_nil_r. cbn [as_view].
  unfold LaunchView.dispatch, LTIView.dispatch, LTIView.get_message_launch.
  rewrite bind_ret. set (launch := message_launch_cls self (request self)).
  unfold LaunchView.super_dispatch, View_dispatch.
  destruct (method (request self)); cbn [bool_decide decide_rel default];
    try (by intros ?%elem_of_nil).
  replace (bool_decide (http.POST ∈ LaunchView.http_method_names)) with true
    by reflexivity.
  unfold id, LaunchView.post. rewrite saves_bind.
  assert (∀ r : result (gmap string val),
            match r with
            | Ok a => saves (calls (render_to_response
                                      (LaunchView.get_template_names launch)
                                      (Context a)))
            | Raise _ => []
            end = []) as ->.
  { intros [a|e]; [|done].
    unfold render_to_response, LaunchView.get_template_names. no_saves. }
  rewrite app_nil_r. unfold LaunchView.get_context_data.
  destruct (bool_decide _); [|by intros ?%elem_of_nil].
  rewrite saves_bind.
  unfold ExtendedDjangoMessageLaunch.get_launch_data_validating at 1.
  rewrite saves_bind.
  assert (∀ r : result MessageLaunch,
            match r with
            | Ok _ => saves (calls (ret (get_launch_data launch)))
            | Raise _ => []
            end = []) as -> by by intros [].
  rewrite app_nil_r.
  destruct (validate_saves launch) as [[Hok ->]|[_ ->]].
  - intros [->%list_elem_of_singleton|Hin]%elem_of_app; [done|].
    exfalso. revert Hin.
    destruct (outcome (ExtendedDjangoMessageLaunch.get_launch_data_validating launch))
      as [data|e]; [|by intros ?%elem_of_nil].
    destruct (LaunchView.get_special_word launch);
      cbn; by intros ?%elem_of_nil.
  - intros Hin. exfalso. revert Hin. cbn [app].
    destruct (outcome (ExtendedDjangoMessageLaunch.get_launch_data_validating launch))
      as [data|e]; [|by intros ?%elem_of_nil].
    destruct (LaunchView.get_special_word launch);
      cbn; by intros ?%elem_of_nil.
Qed.

Lemma storage_after_lookup (cs : list call) (st : gmap string MessageLaunch)
    (i : string) (launch : MessageLaunch) :
  storage_after cs st !! i = Some launch →
  st !! i = Some launch ∨ (i, launch) ∈ saves cs.
Proof.
  unfold storage_after. revert st.
  induction cs as [|c cs IH]; intros st; cbn [foldl]; [by left|].
  intros [H|H]%IH.
  - destruct c; try (by left).
    destruct (decide (launch_id = i)) as [->|Hne].
    + rewrite lookup_insert_eq in H. injection H as ->.
      right. apply list_elem_of_here.
    + rewrite lookup_insert_ne in H by done. by left.
  - right. destruct c; try done. by apply list_elem_of_further.
Qed.

(** Whatever the cache holds after a sequence of requests was there at the
    start or was minted by one of the requests. *)
Lemma run_minted (rs : list (target * view)) (st : gmap string MessageLaunch)
    (i : string) (launch : MessageLaunch) :
  run rs st !! i = Some launch →
  st !! i = Some launch ∨ ∃ r, r ∈ rs ∧ mints r i launch.
Proof.
  unfold run. revert st.
  induction rs as [|r rs IH]; intros st; cbn [foldl]; [by left|].
  intros [H|(r' & Hin & Hm)]%IH.
  - unfold step in H. apply storage_after_lookup in H as [H|H]; [by left|].
    right. exists r. split; [apply list_elem_of_here|].
    destruct r as [t self]. cbn [fst snd] in H.
    destruct t; try (by rewrite cached_view_saves_nothing in H;
                        [apply elem_of_nil in H|]).
    apply launch_view_saves in H. exact H.
  - right. exists r'. split; [by apply list_elem_of_further|done].
Qed.

(** C8.  After any sequence of requests on a cache that was empty at the
    start, a request to a cached view either fails at the load, having
    called nothing but the cache, when the launch id is absent or nothing is
    cached under it; or runs its handler on the launch cached under the id,
    and that launch was minted under this id by an earlier request to the
    launch view whose validation passed. *)
Theorem cached_views_fail_closed (rs : list (target * view)) (t : target)
    (self0 : view) (i : option string) :
  let st := run rs ∅ in
  let self := with_storage st self0 in
  cached t = true →
  get_launch_id_of t self = Ok i →
  match i ≫= (λ j, st !! j) with
  | None =>
      as_view t self = ([from_cache_call i], Raise (LtiException "Launch data not found"))
  | Some launch =>
      as_view t self
      = (from_cache_call i :: calls (super_dispatch_of t self launch),
         outcome (super_dispatch_of t self launch))
      ∧ ∃ j r, i = Some j ∧ r ∈ rs ∧ mints r j launch
  end.
Proof.
  intros st self Hc Hi.
  pose proof (cached_dispatch_load _ _ _ Hc Hi) as Hload.
  change (launch_data_storage self) with st in Hload.
  destruct i as [j|]; cbn [mbind option_bind] in *; [|done].
  destruct (st !! j) as [launch|] eqn:Hj; [|done].
  split; [done|]. exists j.
  apply run_minted in Hj as [Hj|(r & Hin & Hm)]; [by rewrite lookup_empty in Hj|].
  eauto.
Qed.

Lemma cached_views_fail_closed_witness :
  let rs := [(game_launch, sample.a_view http.POST ∅ ∅ ∅ sample.student_launch)] in
  let self :=
    with_storage (run rs ∅)
      (sample.a_view http.GET ∅ {[ "launch_id" := "lti1p3-launch-0001" ]} ∅
         sample.student_launch) in
  as_view scoreboard self
  = (from_cache_call (Some "lti1p3-launch-0001")
       :: calls (super_dispatch_of scoreboard self sample.student_launch),
     outcome (super_dispatch_of scoreboard self sample.student_launch))
  ∧ ∃ j r, Some "lti1p3-launch-0001" = Some j ∧ r ∈ rs
           ∧ mints r j sample.student_launch.
Proof.
  exact (cached_views_fail_closed
           [(game_launch, sample.a_view http.POST ∅ ∅ ∅ sample.student_launch)]
           scoreboard
           (sample.a_view http.GET ∅ {[ "launch_id" := "lti1p3-launch-0001" ]} ∅
              sample.student_launch)
           (Some "lti1p3-launch-0001") eq_refl eq_refl).
Defined.

(** ** The join of the scores onto the roster *)

Section join.
Implicit Types (m s : gmap string val) (members scores : list (gmap string val)).
Implicit Types (member_by_user : gmap hkey nat) (k : hkey).

Lemma member_by_user_from_ok members (i : nat) (acc : gmap hkey nat) member_by_user :
  ScoreboardView.member_by_user_from members i acc = Ok member_by_user →
  Forall (λ m, is_Some (user_key m)) members
  ∧ ∀ k, member_by_user !! k
         = match last_pos k members with
           | Some j => Some (i + j)%nat
           | None => acc !! k
           end.
Proof.
  revert i acc. induction members as [|m members IH]; intros i acc; cbn.
  - intros [= <-]. split; [constructor|done].
  - unfold dict_item, user_key, key_of.
    destruct (m !! "user_id") as [v|] eqn:Hv; cbn; [|done].
    destruct (hash v) as [key|] eqn:Hh; cbn; [|done].
    intros [HF Hl]%IH. split.
    { constructor; [|done]. rewrite Hv. cbn. rewrite Hh. eauto. }
    intros k. rewrite Hl. destruct (last_pos k members) as [j|].
    { f_equal. lia. }
    destruct (decide (Some key = Some k)) as [[= ->]|Hne].
    + rewrite lookup_insert_eq. f_equal. lia.
    + rewrite lookup_insert_ne; congruence.
Qed.

Lemma member_by_user_from_total members (i : nat) (acc : gmap hkey nat) :
  Forall (λ m, is_Some (user_key m)) members →
  ∃ member_by_user, ScoreboardView.member_by_user_from members i acc = Ok member_by_user.
Proof.
  intros HF. revert i acc. induction HF as [|m members [k Hk] _ IH]; intros i acc; cbn.
  - eauto.
  - unfold user_key, key_of, dict_item in *.
    destruct (m !! "user_id") as [v|]; cbn in *; [|done].
    destruct (hash v); cbn; [|done]. apply IH.
Qed.

Lemma last_pos_Some k members (j : nat) :
  last_pos k members = Some j → ∃ m, members !! j = Some m ∧ user_key m = Some k.
Proof.
  revert j. induction members as [|m members IH]; intros j; cbn; [done|].
  destruct (last_pos k members) as [j'|].
  - intros [= <-]. by apply IH.
  - destruct (decide _) as [Hk|]; [|done]. intros [= <-]. eauto.
Qed.

Lemma last_pos_None k members :
  last_pos k members = None ↔ ∀ m, m ∈ members → user_key m ≠ Some k.
Proof.
  induction members as [|m members IH]; cbn.
  - split; [|done]. by intros _ m ?%elem_of_nil.
  - destruct (last_pos k members) as [j|].
    + split; [done|]. intros H. exfalso.
      assert (Some j = None) as [=]. apply IH. intros m' Hin. apply H. by right.
    + destruct (decide _) as [Hk|Hk].
      * split; [done|]. intros H. exfalso. by apply (H m); [left|].
      * split; [|done]. intros _ m' [->|Hin]%elem_of_cons; [done|].
        by apply IH.
Qed.

(** With distinct keys the dict holds every member under its key. *)
Lemma last_pos_NoDup k members (j : nat) m :
  NoDup (user_key <$> members) →
  members !! j = Some m → user_key m = Some k → last_pos k members = Some j.
Proof.
  revert j. induction members as [|m0 members IH]; intros j; [done|].
  rewrite fmap_cons, NoDup_cons. intros [Hnotin Hnd]. destruct j as [|j]; cbn.
  - intros [= ->] Hk.
    assert (last_pos k members = None) as ->.
    { apply last_pos_None. intros m' Hin Hk'. apply Hnotin.
      rewrite Hk, <- Hk'. by apply list_elem_of_fmap_2. }
    by rewrite decide_True.
  - intros Hj Hk. by rewrite (IH j Hnd Hj Hk).
Qed.

Lemma set_scores_ok member_by_user scores members joined :
  ScoreboardView.set_scores member_by_user scores members = Ok joined →
  Forall (λ s, ∃ k, score_key s = Some k ∧ is_Some (member_by_user !! k)) scores
  ∧ ∀ j : nat,
      joined !! j
      = scored (last (filter (λ s, score_key s ≫= (member_by_user !!.) = Some j) scores))
          <$> members !! j.
Proof.
  revert members.
  induction scores as [|s scores IH]; intros members;
    cbn [ScoreboardView.set_scores].
  - intros [= <-]. split; [constructor|]. intros j. by destruct (members !! j).
  - unfold dict_item.
    destruct (s !! "userId") as [v|] eqn:Hv; cbn [rbind]; [|done].
    destruct (hash v) as [key|] eqn:Hh; cbn [rbind]; [|done].
    destruct (member_by_user !! key) as [i|] eqn:Hi; [|done].
    assert (score_key s = Some key) as Hs.
    { unfold score_key, key_of. rewrite Hv. cbn. by rewrite Hh. }
    intros [HF Hl]%IH. split.
    { constructor; [|done]. exists key. rewrite Hi. eauto. }
    intros j. rewrite Hl, filter_cons, Hs. cbn. rewrite Hi.
    destruct (decide (Some i = Some j)) as [[= ->]|Hne].
    + rewrite list_lookup_alter_eq. destruct (members !! j) as [m|]; [|done].
      cbn. f_equal.
      destruct (filter _ scores) as [|s' l]; [done|].
      rewrite last_cons_cons.
      destruct (last_is_Some (s' :: l)) as [_ [s'' ->]]; [done|].
      cbn. by rewrite insert_insert_eq.
    + rewrite list_lookup_alter_ne; [done|congruence].
Qed.

Lemma set_scores_total member_by_user scores members :
  Forall (λ s, ∃ k, score_key s = Some k ∧ is_Some (member_by_user !! k)) scores →
  ∃ joined, ScoreboardView.set_scores member_by_user scores members = Ok joined.
Proof.
  intros HF. revert members.
  induction HF as [|s scores (k & Hk & [i Hi]) _ IH]; intros members; cbn; [eauto|].
  unfold score_key, key_of, dict_item in *.
  destruct (s !! "userId") as [v|]; cbn in *; [|done].
  destruct (hash v); cbn; [|done]. injection Hk as ->. rewrite Hi. apply IH.
Qed.

(** The first score entry whose user is not in the dict raises the key
    error. *)
Lemma set_scores_unmatched member_by_user scores s scores' members (v : val) k :
  Forall (λ s, ∃ k, score_key s = Some k ∧ is_Some (member_by_user !! k)) scores →
  s !! "userId" = Some v → hash v = Ok k → member_by_user !! k = None →
  ScoreboardView.set_scores member_by_user (scores ++ s :: scores') members
  = Raise (KeyError v).
Proof.
  intros HF Hv Hh Hk. revert members.
  induction HF as [|s0 scores (k0 & Hk0 & [i Hi]) _ IH]; intros members; cbn.
  - unfold dict_item. rewrite Hv. cbn. rewrite Hh. cbn. by rewrite Hk.
  - unfold score_key, key_of, dict_item in *.
    destruct (s0 !! "userId") as [v0|]; cbn in *; [|done].
    destruct (hash v0); cbn; [|done]. injection Hk0 as ->. rewrite Hi. apply IH.
Qed.

End join.

Lemma lookup_fmap_length {A B} (l : list A) (l' : list B) (f : nat → A → B) :
  (∀ j, l' !! j = f j <$> l !! j) → length l' = length l.
Proof.
  intros H. apply Nat.le_antisymm.
  - apply lookup_ge_None. rewrite H, lookup_ge_None_2; done.
  - apply lookup_ge_None. specialize (H (length l')).
    rewrite lookup_ge_None_2 in H by done.
    by destruct (l !! length l').
Qed.

(** What the scoreboard hands to its template, once the roster and the
    scores are fetched: the members as the join leaves them, or the error of
    the join. *)
Lemma scoreboard_context (self : view) (message_launch : MessageLaunch)
    (resource_link_id : val) (members0 members scores : list (gmap string val)) :
  has_nrps message_launch = true →
  has_ags message_launch = true →
  attr_get (dict_get_default (get_launch_data message_launch)
              RESOURCE_LINK (VDict ∅)) "id" = Ok resource_link_id →
  fetched_scores (get_ags message_launch) resource_link_id = Ok scores →
  get_members (get_nrps message_launch) = Ok members0 →
  ScoreboardView.set_role_flags (roles self) members0 = Ok members →
  outcome (ScoreboardView.get_context_data self message_launch)
  = match ScoreboardView.join members scores with
    | Ok joined =>
        Ok (Context (<["members" := VList (VDict <$> joined)]>
                     (ContextMixin_get_context_data "ScoreboardView" (kwargs self))))
    | Raise e => Raise e
    end.
Proof.
  intros Hnrps Hags Hrl Hscores Hmembers Hflags.
  unfold ScoreboardView.get_context_data.
  rewrite Hrl, bind_lift_ok, Hnrps, Hags. cbn [negb].
  unfold fetched_scores, score_line_item_of in Hscores.
  destruct (can_create_lineitem (get_ags message_launch)).
  - destruct (truthy resource_link_id);
      (destruct (find_or_create_lineitem _ _) as [li|]; [|done]);
      unfold perform; cbn; rewrite Hscores; cbn; rewrite Hmembers; cbn;
      rewrite Hflags; cbn; by destruct (ScoreboardView.join members scores).
  - unfold perform; cbn; rewrite Hscores; cbn; rewrite Hmembers; cbn;
      rewrite Hflags; cbn; by destruct (ScoreboardView.join members scores).
Qed.

(** What the join leaves at each place of the roster: the last member with
    a user id gets the last score entry with that id, and no other member
    gets an entry. *)
Lemma join_lookup (members scores joined : list (gmap string val))
    (j : nat) (m : gmap string val) :
  ScoreboardView.join members scores = Ok joined →
  members !! j = Some m →
  ∃ k,
    user_key m = Some k
    ∧ joined !! j
      = Some (scored (if decide (last_pos k members = Some j)
                      then last (filter (λ s, score_key s = Some k) scores)
                      else None) m).
Proof.
  intros Hjoin Hm. unfold ScoreboardView.join in Hjoin.
  destruct (ScoreboardView.member_by_user_from members 0 ∅) as [mbu|] eqn:Hmbu;
    cbn [rbind] in Hjoin; [|done].
  apply member_by_user_from_ok in Hmbu as [HF Hl].
  apply set_scores_ok in Hjoin as [_ Hj].
  destruct (proj1 (Forall_lookup _ _) HF j m Hm) as [k Hk].
  exists k. split; [done|]. rewrite Hj, Hm. cbn. do 2 f_equal.
  assert (∀ k', mbu !! k' = Some j → k' = k) as Hkey.
  { intros k'. rewrite Hl.
    destruct (last_pos k' members) as [j'|] eqn:Hpos; [|by rewrite lookup_empty].
    intros [= <-]. apply last_pos_Some in Hpos as (m0 & Hm0 & Hk0). congruence. }
  destruct (decide (last_pos k members = Some j)) as [Hlast|Hlast].
  - f_equal. apply list_filter_iff. intros s. split.
    + destruct (score_key s) as [k'|]; cbn; [|done].
      intros Hk'. by rewrite (Hkey k' Hk').
    + intros ->. cbn. by rewrite Hl, Hlast.
  - assert (filter (λ s, score_key s ≫= (mbu !!.) = Some j) scores = []) as ->;
      [|done].
    apply elem_of_nil_inv. intros s [Hs _]%list_elem_of_filter.
    destruct (score_key s) as [k'|]; cbn in Hs; [|done].
    pose proof (Hkey k' Hs) as ->.
    apply Hlast. rewrite Hl in Hs.
    destruct (last_pos k members); [|by rewrite lookup_empty in Hs].
    by injection Hs as ->.
Qed.

(** C9.  When the join of the scores onto a roster completes, every member
    keeps its place and its fields other than the score field.  The last
    member with a user id carries the last score entry with that id in its
    score field, when there is such an entry.  Every other member is as it
    arrived: a member with no matching score entry, and a member that
    shares its user id with a later member.  So on a roster whose members
    have distinct user ids and arrive without a score field, a member with a
    matching score entry carries the last one in its score field, and a
    member with no matching score entry has no score field. *)
Theorem scores_joined_by_subject (members scores joined : list (gmap string val)) :
  ScoreboardView.join members scores = Ok joined →
  length joined = length members
  ∧ ∀ (j : nat) (m : gmap string val),
      members !! j = Some m →
      let matching := filter (λ s, score_key s = user_key m) scores in
      ∃ k m',
        user_key m = Some k
        ∧ joined !! j = Some m'
        ∧ (∀ key, key ≠ "score" → m' !! key = m !! key)
        ∧ (last_pos k members = Some j →
             ∀ s, last matching = Some s → m' = <["score" := VDict s]> m)
        ∧ (last_pos k members ≠ Some j ∨ matching = [] → m' = m)
        ∧ (NoDup (user_key <$> members) → m !! "score" = None →
             m' !! "score" = VDict <$> last matching).
Proof.
  intros Hjoin. split.
  { unfold ScoreboardView.join in Hjoin.
    destruct (ScoreboardView.member_by_user_from members 0 ∅) as [mbu|];
      cbn [rbind] in Hjoin; [|done].
    apply set_scores_ok in Hjoin as [_ Hj].
    by apply (lookup_fmap_length _ _ _ Hj). }
  intros j m Hm matching.
  destruct (join_lookup _ _ _ _ _ Hjoin Hm) as (k & Hk & Hj).
  assert (filter (λ s, score_key s = Some k) scores = matching) as Hmatching.
  { apply list_filter_iff. intros s. by rewrite Hk. }
  rewrite Hmatching in Hj. exists k. eexists. split_and!; [done|exact Hj|..].
  - intros key Hkey. destruct (decide _); [|done].
    destruct (last matching); cbn; [|done]. by rewrite lookup_insert_ne.
  - intros Hlast s Hs. by rewrite decide_True, Hs.
  - intros [Hlast|Hnone].
    + by rewrite decide_False.
    + rewrite Hnone. by destruct (decide _).
  - intros Hnd Hnoscore.
    rewrite decide_True by by apply (last_pos_NoDup _ _ _ _ Hnd Hm Hk).
    destruct (last matching); cbn; [|done]. by rewrite lookup_insert_eq.
Qed.

Lemma scores_joined_by_subject_witness :
  let members := [sample.alice; sample.bob; sample.carol] in
  let scores := [sample.score_of "u-alice" 70; sample.score_of "u-bob" 85] in
  let joined := [<["score" := VDict (sample.score_of "u-alice" 70)]> sample.alice;
                 <["score" := VDict (sample.score_of "u-bob" 85)]> sample.bob;
                 sample.carol] in
  length joined = length members
  ∧ ∀ (j : nat) (m : gmap string val),
      members !! j = Some m →
      let matching := filter (λ s, score_key s = user_key m) scores in
      ∃ k m',
        user_key m = Some k
        ∧ joined !! j = Some m'
        ∧ (∀ key, key ≠ "score" → m' !! key = m !! key)
        ∧ (last_pos k members = Some j →
             ∀ s, last matching = Some s → m' = <["score" := VDict s]> m)
        ∧ (last_pos k members ≠ Some j ∨ matching = [] → m' = m)
        ∧ (NoDup (user_key <$> members) → m !! "score" = None →
             m' !! "score" = VDict <$> last matching).
Proof.
  intros members scores joined.
  exact (scores_joined_by_subject members scores joined eq_refl).
Defined.

(** C9, as the claim states it, fails.  On a roster where two members have
    one user id, the first of them has a matching score entry and is left
    without a score field; and a member that arrives with a score field and
    has no matching score entry still has that field after the join. *)
Lemma score_missed_by_earlier_member_of_an_id :
  let members := [sample.bob; sample.bob; <["score" := VInt 0]> sample.carol] in
  let scores := [sample.score_of "u-bob" 85] in
  ∃ joined,
    ScoreboardView.join members scores = Ok joined
    ∧ (∃ m s m',
         members !! 0%nat = Some m
         ∧ s ∈ scores ∧ score_key s = user_key m
         ∧ joined !! 0%nat = Some m' ∧ m' !! "score" = None)
    ∧ (∃ m m',
         members !! 2%nat = Some m
         ∧ filter (λ s, score_key s = user_key m) scores = []
         ∧ joined !! 2%nat = Some m' ∧ m' !! "score" = Some (VInt 0)).
Proof.
  intros members scores. eexists. split; [reflexivity|]. split.
  - exists sample.bob, (sample.score_of "u-bob" 85), sample.bob.
    split_and!; [reflexivity|by left|reflexivity..].
  - eexists _, _. split_and!; reflexivity.
Qed.

Lemma member_by_user_lookup members (member_by_user : gmap hkey nat) (k : hkey) :
  (∀ k, member_by_user !! k
        = match last_pos k members with
          | Some j => Some (0 + j)%nat
          | None => (∅ : gmap hkey nat) !! k
          end) →
  is_Some (member_by_user !! k) ↔ ∃ m, m ∈ members ∧ user_key m = Some k.
Proof.
  intros Hl. rewrite Hl. destruct (last_pos k members) as [j|] eqn:Hpos.
  - split; [|eauto]. intros _.
    apply last_pos_Some in Hpos as (m & Hm & Hk).
    exists m. split; [by eapply list_elem_of_lookup_2|done].
  - rewrite lookup_empty. split; [by intros []|].
    intros (m & Hin & Hk). exfalso.
    by apply (proj1 (last_pos_None k members) Hpos m).
Qed.

(** C10.  The join completes only if every score entry has the user id of
    some roster member; on a roster and scores that carry their ids, it
    completes if every entry has, and otherwise the first entry without a
    member raises a key error on its user id; and an error of the join is
    the outcome of the scoreboard view. *)
Theorem join_total_iff_scores_in_roster (members scores : list (gmap string val)) :
  let in_roster (s : gmap string val) :=
    ∃ m, m ∈ members ∧ user_key m = score_key s in
  (∀ joined, ScoreboardView.join members scores = Ok joined →
     Forall (λ s, is_Some (score_key s) ∧ in_roster s) scores)
  ∧ (Forall (λ m, is_Some (user_key m)) members →
     Forall (λ s, is_Some (score_key s)) scores →
     (Forall in_roster scores →
        ∃ joined, ScoreboardView.join members scores = Ok joined)
     ∧ (∀ scores1 s scores2 (userId : val),
          scores = scores1 ++ s :: scores2 →
          Forall in_roster scores1 →
          s !! "userId" = Some userId →
          ¬ in_roster s →
          ScoreboardView.join members scores = Raise (KeyError userId)))
  ∧ (∀ (self : view) (message_launch : MessageLaunch) (resource_link_id : val)
       (members0 : list (gmap string val)) (e : exn),
       has_nrps message_launch = true →
       has_ags message_launch = true →
       attr_get (dict_get_default (get_launch_data message_launch)
                   RESOURCE_LINK (VDict ∅)) "id" = Ok resource_link_id →
       fetched_scores (get_ags message_launch) resource_link_id = Ok scores →
       get_members (get_nrps message_launch) = Ok members0 →
       ScoreboardView.set_role_flags (roles self) members0 = Ok members →
       ScoreboardView.join members scores = Raise e →
       outcome (ScoreboardView.get self message_launch) = Raise e).
Proof.
  intros in_roster. split_and!.
  - intros joined Hjoin. unfold ScoreboardView.join in Hjoin.
    destruct (ScoreboardView.member_by_user_from members 0 ∅) as [mbu|] eqn:Hmbu;
      cbn [rbind] in Hjoin; [|done].
    apply member_by_user_from_ok in Hmbu as [_ Hl].
    apply set_scores_ok in Hjoin as [HF _].
    eapply Forall_impl; [exact HF|]. cbn. intros s (k & Hs & Hk).
    unfold in_roster. rewrite Hs. split; [eauto|].
    by apply (member_by_user_lookup _ _ _ Hl).
  - intros HFm HFs.
    destruct (member_by_user_from_total members 0 ∅ HFm) as [mbu Hmbu].
    unfold ScoreboardView.join. rewrite Hmbu. cbn [rbind].
    apply member_by_user_from_ok in Hmbu as [_ Hl].
    assert (∀ l, Forall (λ s, is_Some (score_key s)) l → Forall in_roster l →
                 Forall (λ s, ∃ k, score_key s = Some k ∧ is_Some (mbu !! k)) l)
      as Hmatched.
    { intros l Hl1 Hl2. apply Forall_forall. intros s Hin.
      destruct (proj1 (Forall_forall _ _) Hl1 s Hin) as [k Hk].
      destruct (proj1 (Forall_forall _ _) Hl2 s Hin) as (m & Hm & Hmk).
      exists k. split; [done|].
      apply (member_by_user_lookup _ _ _ Hl). exists m. by rewrite Hmk. }
    split.
    + intros Hin. by apply set_scores_total, Hmatched.
    + intros scores1 s scores2 userId -> Hin Hv Hout.
      apply Forall_app in HFs as [HFs1 [[k Hk] _]%Forall_cons_1].
      unfold score_key, key_of in Hk. rewrite Hv in Hk. cbn in Hk.
      destruct (hash userId) as [k'|] eqn:Hh; [|done]. injection Hk as ->.
      apply (set_scores_unmatched _ _ _ _ _ _ k); [by apply Hmatched|done..|].
      apply eq_None_not_Some. intros Hsome. apply Hout.
      apply (member_by_user_lookup _ _ _ Hl) in Hsome as (m & Hm & Hmk).
      exists m. split; [done|].
      unfold score_key, key_of. rewrite Hv. cbn. by rewrite Hh.
  - intros self ml rl members0 e Hnrps Hags Hrl Hscores Hmembers Hflags Hjoin.
    unfold ScoreboardView.get, TemplateView_get.
    apply outcome_bind_raise.
    rewrite (scoreboard_context _ _ _ _ _ _ Hnrps Hags Hrl Hscores Hmembers Hflags).
    by rewrite Hjoin.
Qed.

Lemma join_total_iff_scores_in_roster_witness :
  ScoreboardView.join [sample.alice; sample.bob]
    [sample.score_of "u-alice" 70; sample.score_of "u-dave" 10]
  = Raise (KeyError (VStr "u-dave")).
Proof.
  refine (proj2 (proj1 (proj2 (join_total_iff_scores_in_roster
                                 [sample.alice; sample.bob]
                                 [sample.score_of "u-alice" 70;
                                  sample.score_of "u-dave" 10])) _ _)
            [sample.score_of "u-alice" 70] (sample.score_of "u-dave" 10) []
            (VStr "u-dave") eq_refl _ eq_refl _).
  - repeat constructor; by eexists.
  - repeat constructor; by eexists.
  - repeat constructor. exists sample.alice. split; [left|reflexivity].
  - intros (m & Hin & Hkey).
    repeat (apply elem_of_cons in Hin as [->|Hin]); try discriminate Hkey.
    by apply elem_of_nil in Hin.
Defined.

(** The scoreboard of the specification: of three members two have a score
    entry, and the template gets those two with a score field and the third
    without one. *)
Example scoreboard_of_three :
  let self :=
    sample.a_view http.GET ∅ {[ "launch_id" := "lti1p3-launch-0001" ]}
      {[ "lti1p3-launch-0001" := sample.student_launch ]} sample.student_launch in
  ∃ context members,
    outcome (as_view scoreboard self)
    = Ok (TemplateResponse ["scoreboard.html"] (Context context))
    ∧ context !! "members" = Some (VList (VDict <$> members))
    ∧ (λ m, m !! "score") <$> members
      = [Some (VDict (sample.score_of "u-alice" 70));
         Some (VDict (sample.score_of "u-bob" 85));
         None].
Proof. intros self. do 2 eexists. split_and!; reflexivity. Qed.


(** * More properties of the views *)

(** ** The score view *)

(** [int] on some strings.  White space around the number is skipped,
    ASCII or not, but not the separators 28 to 31, which [str.strip] drops;
    decimal digits of other scripts are read; single underscores group the
    digits; a number of more than 4300 digits is refused. *)
Example int_of_some_strings :
  int_of_str " 85 " = Some 85
  ∧ int_of_str "　85 " = Some 85
  ∧ int_of_str (String "028" "85") = None
  ∧ int_of_str "٨٥" = Some 85
  ∧ int_of_str "-٨_5" = Some (-85)
  ∧ int_of_str "8__5" = None
  ∧ int_of_str "85_" = None
  ∧ int_of_str "8 5" = None
  ∧ int_of_str "eighty" = None
  ∧ int_of_str "" = None
  ∧ is_Some (int_of_str (String.concat "" (replicate 4300 "1")))
  ∧ int_of_str (String.concat "" (replicate 4301 "1")) = None.
Proof. split_and!; try (vm_compute; reflexivity). vm_compute. by eexists. Qed.

(** X1.  The score view submits a grade exactly when the launch has a grade
    service, the resource link of the launch data can be read and the posted
    score parses: then it submits one grade, and otherwise it calls
    nothing. *)
Theorem grade_submitted_iff_request_complete (self : view) (message_launch : MessageLaunch) :
  let complete :=
    has_ags message_launch = true
    ∧ (∃ resource_link_id,
         attr_get (dict_get_default (get_launch_data message_launch)
                     RESOURCE_LINK (VDict ∅)) "id" = Ok resource_link_id)
    ∧ (∃ score, int (QueryDict_get (POST (request self)) "score" None) = Ok score) in
  (complete →
     ∃ sc line_item,
       submissions (calls (SetScoreView.post self message_launch)) = [(sc, line_item)])
  ∧ (¬ complete → calls (SetScoreView.post self message_launch) = []).
Proof.
  intros complete. split.
  - intros (Hags & [rl Hrl] & [score Hscore]).
    rewrite (score_view_calls _ _ _ _ Hags Hrl Hscore).
    destruct (can_create_lineitem _); cbn; eauto.
  - intros Hnot. unfold SetScoreView.post.
    destruct (attr_get _ _) as [rl|e] eqn:Hrl; [rewrite bind_lift_ok|done].
    destruct (has_ags message_launch) eqn:Hags; cbn [negb]; [|done].
    destruct (int _) as [score|e] eqn:Hscore; [|done].
    exfalso. apply Hnot. unfold complete. eauto.
Qed.

Lemma grade_submitted_iff_request_complete_witness :
  ∃ sc line_item,
    submissions
      (calls (SetScoreView.post
                (sample.a_view http.POST sample.score_form ∅ ∅ sample.student_launch)
                sample.student_launch))
    = [(sc, line_item)].
Proof.
  apply (grade_submitted_iff_request_complete
           (sample.a_view http.POST sample.score_form ∅ ∅ sample.student_launch)
           sample.student_launch).
  split_and!; [reflexivity|by eexists|by eexists].
Defined.

(** X2.  What the score view answers when it submits nothing, in the order
    of its checks: a resource link of the launch data that is not a dict
    raises, with or without a grade service; then a launch without a grade
    service gets the 403, whatever is posted; then a missing score raises a
    type error and a score that is no number a value error. *)
Theorem score_view_rejections (self : view) (message_launch : MessageLaunch) :
  let resource_link_id :=
    attr_get (dict_get_default (get_launch_data message_launch)
                RESOURCE_LINK (VDict ∅)) "id" in
  let posted := QueryDict_get (POST (request self)) "score" None in
  (∀ e, resource_link_id = Raise e →
     SetScoreView.post self message_launch = ([], Raise e))
  ∧ (∀ v, resource_link_id = Ok v → has_ags message_launch = false →
       SetScoreView.post self message_launch
       = ([], Ok (Plain (HttpResponseForbidden
                           "This launch doesn't provide a grades service!"))))
  ∧ (∀ v, resource_link_id = Ok v → has_ags message_launch = true →
       posted = None →
       ∃ msg, SetScoreView.post self message_launch = ([], Raise (TypeError msg)))
  ∧ (∀ v s, resource_link_id = Ok v → has_ags message_launch = true →
       posted = Some s → int_of_str s = None →
       ∃ msg, SetScoreView.post self message_launch = ([], Raise (ValueError msg))).
Proof.
  intros resource_link_id posted. unfold SetScoreView.post.
  fold resource_link_id. fold posted. split_and!.
  - by intros e ->.
  - intros v -> ->. done.
  - intros v -> -> ->. rewrite bind_lift_ok. cbn. eauto.
  - intros v s -> -> -> Hs. rewrite bind_lift_ok. cbn. rewrite Hs. eauto.
Qed.

Lemma score_view_rejections_witness :
  ∃ msg,
    SetScoreView.post
      (sample.a_view http.POST {[ "score" := ["eighty"] ]} ∅ ∅ sample.student_launch)
      sample.student_launch
    = ([], Raise (ValueError msg)).
Proof.
  apply (score_view_rejections
           (sample.a_view http.POST {[ "score" := ["eighty"] ]} ∅ ∅
              sample.student_launch)
           sample.student_launch) with (v := VStr "rl-1") (s := "eighty");
    reflexivity.
Defined.

(** X3.  Of what the grade service answers to the submission, the score view
    catches the service exception alone: an answer becomes a JSON response
    with a true success flag and the ['body'] of the answer ([None] when the
    answer has none), and any other exception is raised by the view. *)
Theorem score_view_answer_and_other_errors (self : view)
    (message_launch : MessageLaunch) (resource_link_id : val) (score : Z) :
  has_ags message_launch = true →
  attr_get (dict_get_default (get_launch_data message_launch)
              RESOURCE_LINK (VDict ∅)) "id" = Ok resource_link_id →
  int (QueryDict_get (POST (request self)) "score" None) = Ok score →
  let answer :=
    put_grade (get_ags message_launch) (grade_of self message_launch score)
      (if can_create_lineitem (get_ags message_launch)
       then Some (score_line_item_of resource_link_id) else None) in
  (∀ result, answer = Ok result →
     outcome (SetScoreView.post self message_launch)
     = Ok (Plain (JsonResponse
                    (VDict (<["success" := VBool true]>
                            (<["result" := default VNone (result !! "body")]> ∅))))))
  ∧ (∀ e, answer = Raise e → (∀ msg, e ≠ LtiServiceException msg) →
       outcome (SetScoreView.post self message_launch) = Raise e).
Proof.
  intros Hags Hrl Hscore answer.
  rewrite (score_view_outcome _ _ _ _ Hags Hrl Hscore). fold answer. split.
  - by intros result ->.
  - intros e -> Hne. destruct e; try done. by destruct (Hne msg).
Qed.

Lemma score_view_answer_and_other_errors_witness :
  outcome (SetScoreView.post
             (sample.a_view http.POST sample.score_form ∅ ∅ sample.student_launch)
             sample.student_launch)
  = Ok (Plain (JsonResponse
                 (VDict (<["success" := VBool true]>
                         (<["result" := VStr "saved"]> ∅))))).
Proof.
  exact (proj1 (score_view_answer_and_other_errors
                  (sample.a_view http.POST sample.score_form ∅ ∅ sample.student_launch)
                  sample.student_launch (VStr "rl-1") 85 eq_refl eq_refl eq_refl)
           {[ "body" := VStr "saved" ]} eq_refl).
Defined.

(** ** The special word, from the deep link to the launch *)

(** X4.  The special word round trip: when the custom claim of a launch is
    the custom parameters of the resource that the deep-link view built for
    a request, the launch view reads back the word that was posted with that
    request ([None] when none was). *)
Theorem special_word_round_trip (self : view) (resource : DeepLinkResource.t)
    (message_launch : MessageLaunch) :
  CompleteDeepLinkView.get_deep_link_resource self = Ok resource →
  get_launch_data message_launch !! CUSTOM
  = VDict <$> DeepLinkResource.custom_params resource →
  LaunchView.get_special_word message_launch
  = Ok (of_opt (QueryDict_get (POST (request self)) "special-word" None)).
Proof.
  unfold CompleteDeepLinkView.get_deep_link_resource.
  rewrite reverse_game_launch. cbn [rbind]. intros [= <-]. cbn.
  intros Hcustom. unfold LaunchView.get_special_word, dict_get_default.
  rewrite Hcustom. cbn. unfold dict_get. by rewrite lookup_singleton_eq.
Qed.

Lemma special_word_round_trip_witness :
  let self := sample.a_view http.POST {[ "special-word" := ["cat"] ]} ∅ ∅
                sample.student_launch in
  let launch :=
    sample.launch "https://lms.example" false false false true true true
      {[ CUSTOM := VDict {[ "special_word" := VStr "cat" ]} ]}
      (sample.ags true true []) None in
  LaunchView.get_special_word launch = Ok (VStr "cat").
Proof.
  intros self launch.
  exact (special_word_round_trip self _ launch eq_refl eq_refl).
Defined.

(** X5.  The special word of a launch: [None] without a custom claim, and
    for a custom claim that is a dict without the key; the value under the
    key otherwise; and an attribute error for a custom claim that is not a
    dict. *)
Theorem special_word_of_custom_claim (message_launch : MessageLaunch) :
  let custom := get_launch_data message_launch !! CUSTOM in
  (custom = None → LaunchView.get_special_word message_launch = Ok VNone)
  ∧ (∀ d, custom = Some (VDict d) →
       LaunchView.get_special_word message_launch
       = Ok (default VNone (d !! "special_word")))
  ∧ (∀ v, custom = Some v → (∀ d, v ≠ VDict d) →
       ∃ msg, LaunchView.get_special_word message_launch = Raise (AttributeError msg)).
Proof.
  intros custom. unfold LaunchView.get_special_word, dict_get_default.
  fold custom. split_and!.
  - by intros ->.
  - by intros d ->.
  - intros v -> Hv. destruct v; cbn; eauto. by destruct (Hv d).
Qed.

Lemma special_word_of_custom_claim_witness :
  ∃ msg,
    LaunchView.get_special_word
      (sample.launch "https://lms.example" false false false true true true
         {[ CUSTOM := VStr "cat" ]} (sample.ags true true []) None)
    = Raise (AttributeError msg).
Proof.
  apply (special_word_of_custom_claim
           (sample.launch "https://lms.example" false false false true true true
              {[ CUSTOM := VStr "cat" ]} (sample.ags true true []) None))
    with (v := VStr "cat"); [reflexivity|discriminate].
Defined.

(** ** The cache across requests *)

Lemma storage_after_saves (cs : list call) (st : gmap string MessageLaunch) :
  storage_after cs st = foldl (λ st x, <[x.1 := x.2]> st) st (saves cs).
Proof.
  unfold storage_after. revert st.
  induction cs as [|c cs IH]; intros st; [done|].
  destruct c; cbn; apply IH.
Qed.

(** What a POST to the launch view saves is what the validation saves. *)
Lemma launch_view_saves_validated (self : view) :
  method (request self) = http.POST →
  kwargs self = ∅ →
  saves (calls (serve game_launch self))
  = saves (calls (validate ExtendedDjangoMessageLaunch.validate_nonce
                    (message_launch_cls self (request self)))).
Proof.
  intros Hpost Hkw. unfold serve. rewrite saves_bind.
  assert (∀ r : result view_response,
            match r with
            | Ok a => saves (calls (lift (finish a)))
            | Raise _ => []
            end = []) as -> by by intros [].
  rewrite app_nil_r. cbn [as_view].
  unfold LaunchView.dispatch, LTIView.dispatch, LTIView.get_message_launch.
  rewrite bind_ret. set (launch := message_launch_cls self (request self)).
  unfold LaunchView.super_dispatch, View_dispatch. rewrite Hpost.
  replace (bool_decide (http.POST ∈ LaunchView.http_method_names)) with true
    by reflexivity.
  cbn [default from_option]. unfold id, LaunchView.post. rewrite saves_bind.
  assert (∀ r : result (gmap string val),
            match r with
            | Ok a => saves (calls (render_to_response
                                      (LaunchView.get_template_names launch)
                                      (Context a)))
            | Raise _ => []
            end = []) as ->.
  { intros [a|e]; [|done].
    unfold render_to_response, LaunchView.get_template_names. no_saves. }
  rewrite app_nil_r. unfold LaunchView.get_context_data. rewrite Hkw.
  replace (bool_decide ((∅ : gmap string string) = ∅)) with true by reflexivity.
  rewrite saves_bind.
  unfold ExtendedDjangoMessageLaunch.get_launch_data_validating at 1.
  rewrite saves_bind.
  assert (∀ r : result MessageLaunch,
            match r with
            | Ok _ => saves (calls (ret (get_launch_data launch)))
            | Raise _ => []
            end = []) as -> by by intros [].
  rewrite app_nil_r.
  destruct (outcome (ExtendedDjangoMessageLaunch.get_launch_data_validating launch))
    as [data|e]; [|by rewrite app_nil_r].
  destruct (LaunchView.get_special_word launch); cbn; by rewrite app_nil_r.
Qed.

(** The cache after a POST to the launch view whose validation passes. *)
Lemma launch_view_step (st : gmap string MessageLaunch) (self0 : view) :
  let self := with_storage st self0 in
  let launch := message_launch_cls self (request self) in
  method (request self) = http.POST →
  kwargs self = ∅ →
  outcome (validate ExtendedDjangoMessageLaunch.validate_nonce launch) = Ok launch →
  step st (game_launch, self0) = <[get_launch_id launch := launch]> st.
Proof.
  intros self launch Hpost Hkw Hok. unfold step. cbn [fst snd]. fold self.
  rewrite storage_after_saves, (launch_view_saves_validated _ Hpost Hkw).
  fold launch. destruct (validate_saves launch) as [[_ ->]|[[e He] _]]; [done|].
  by rewrite Hok in He.
Qed.

(** X6.  A POST to the launch view validates the launch before anything
    else: when the validation passes, the launch is in the cache under its
    id afterwards, whatever the roles of the launch and whether or not a
    page is rendered; when it fails, the view raises the error of the
    validation and the cache is as it was. *)
Theorem launch_cached_iff_validated (st : gmap string MessageLaunch) (self0 : view) :
  let self := with_storage st self0 in
  let launch := message_launch_cls self (request self) in
  method (request self) = http.POST →
  kwargs self = ∅ →
  (outcome (validate ExtendedDjangoMessageLaunch.validate_nonce launch) = Ok launch →
     step st (game_launch, self0) = <[get_launch_id launch := launch]> st)
  ∧ (∀ e, outcome (validate ExtendedDjangoMessageLaunch.validate_nonce launch) = Raise e →
       step st (game_launch, self0) = st
       ∧ outcome (LaunchView.dispatch self) = Raise e).
Proof.
  intros self launch Hpost Hkw. unfold step. cbn [fst snd]. fold self.
  rewrite storage_after_saves, (launch_view_saves_validated _ Hpost Hkw).
  fold launch. destruct (validate_saves launch) as [[Hok ->]|[[e He] ->]].
  - split; [done|]. intros e He. by rewrite Hok in He.
  - split; [intros Hok; by rewrite Hok in He|].
    intros e' He'. rewrite He in He'. injection He' as ->. split; [done|].
    unfold LaunchView.dispatch, LTIView.dispatch, LTIView.get_message_launch.
    rewrite bind_ret. fold launch.
    unfold LaunchView.super_dispatch, View_dispatch. rewrite Hpost.
    replace (bool_decide (http.POST ∈ LaunchView.http_method_names)) with true
      by reflexivity.
    cbn [default from_option]. unfold id, LaunchView.post.
    apply outcome_bind_raise. unfold LaunchView.get_context_data. rewrite Hkw.
    replace (bool_decide ((∅ : gmap string string) = ∅)) with true by reflexivity.
    apply outcome_bind_raise.
    unfold ExtendedDjangoMessageLaunch.get_launch_data_validating.
    by apply outcome_bind_raise.
Qed.

Lemma launch_cached_iff_validated_witness :
  let unknown :=
    sample.launch "https://lms.example" false false false false true true
      (sample.data "rl-1" DynamicRegistration.get_scopes None)
      (sample.ags true true []) None in
  step ∅ (game_launch, sample.a_view http.POST ∅ ∅ ∅ unknown)
  = <["lti1p3-launch-0001" := unknown]> ∅.
Proof.
  intros unknown.
  exact (proj1 (launch_cached_iff_validated ∅ (sample.a_view http.POST ∅ ∅ ∅ unknown)
                  eq_refl eq_refl) eq_refl).
Defined.

(** X7.  A request to a cached view leaves the cache as it was, whatever
    the view answers. *)
Theorem cached_views_leave_cache (st : gmap string MessageLaunch) (t : target)
    (self : view) :
  cached t = true → step st (t, self) = st.
Proof.
  intros Hc. unfold step. cbn [fst snd].
  by rewrite storage_after_saves, (cached_view_saves_nothing _ _ Hc).
Qed.

Lemma cached_views_leave_cache_witness :
  step {[ "lti1p3-launch-0001" := sample.student_launch ]}
    (game_api_set_score,
     sample.a_view http.POST sample.score_form
       {[ "launch_id" := "lti1p3-launch-0001" ]} ∅ sample.student_launch)
  = {[ "lti1p3-launch-0001" := sample.student_launch ]}.
Proof. by apply (cached_views_leave_cache _ game_api_set_score). Defined.

(** X8.  A launch that the launch view has validated is the one that the
    cached views run on afterwards: after a POST to the launch view whose
    validation passes, a request to a cached view that names the id of that
    launch has its handler called with that launch. *)
Theorem cached_view_runs_on_validated_launch (st : gmap string MessageLaunch)
    (launch_request : view) (t : target) (self0 : view) :
  let launch_self := with_storage st launch_request in
  let launch := message_launch_cls launch_self (request launch_self) in
  let self := with_storage (step st (game_launch, launch_request)) self0 in
  method (request launch_self) = http.POST →
  kwargs launch_self = ∅ →
  outcome (validate ExtendedDjangoMessageLaunch.validate_nonce launch) = Ok launch →
  cached t = true →
  get_launch_id_of t self = Ok (Some (get_launch_id launch)) →
  as_view t self
  = (from_cache_call (Some (get_launch_id launch))
       :: calls (super_dispatch_of t self launch),
     outcome (super_dispatch_of t self launch)).
Proof.
  intros launch_self launch self Hpost Hkw Hok Hc Hid.
  rewrite (cached_dispatch_load _ _ _ Hc Hid). cbn [mbind option_bind].
  change (launch_data_storage self) with (step st (game_launch, launch_request)).
  rewrite (launch_view_step st launch_request Hpost Hkw Hok).
  fold launch_self. fold launch. by rewrite lookup_insert_eq.
Qed.

Lemma cached_view_runs_on_validated_launch_witness :
  let self :=
    with_storage
      (step ∅ (game_launch, sample.a_view http.POST ∅ ∅ ∅ sample.student_launch))
      (sample.a_view http.GET ∅ {[ "launch_id" := "lti1p3-launch-0001" ]} ∅
         sample.student_launch) in
  as_view launch_data self
  = (from_cache_call (Some "lti1p3-launch-0001")
       :: calls (super_dispatch_of launch_data self sample.student_launch),
     outcome (super_dispatch_of launch_data self sample.student_launch)).
Proof.
  intros self.
  exact (cached_view_runs_on_validated_launch ∅
           (sample.a_view http.POST ∅ ∅ ∅ sample.student_launch) launch_data
           (sample.a_view http.GET ∅ {[ "launch_id" := "lti1p3-launch-0001" ]} ∅
              sample.student_launch)
           eq_refl eq_refl eq_refl eq_refl eq_refl).
Defined.

(** X9.  The launch is loaded before the method of the request is looked
    at: a request to a cached view with a method that the view has no
    handler for gets the 405 when the launch is in the cache, with no call
    but the load, and the error of the load when it is not. *)
Theorem method_checked_after_load (t : target) (self : view) (i : option string) :
  cached t = true →
  get_launch_id_of t self = Ok i →
  handles t (method (request self)) = false →
  as_view t self
  = match i ≫= (λ j, launch_data_storage self !! j) with
    | Some _ => ([from_cache_call i], Ok (Plain HttpResponseNotAllowed))
    | None => ([from_cache_call i], Raise (LtiException "Launch data not found"))
    end
  ∧ status_code HttpResponseNotAllowed = 405.
Proof.
  intros Hc Hi Hm. split; [|done].
  rewrite (cached_dispatch_load _ _ _ Hc Hi).
  destruct (i ≫= _) as [launch|]; [|done].
  assert (super_dispatch_of t self launch = http_method_not_allowed) as ->; [|done].
  destruct t; [done|..]; cbn [super_dispatch_of];
    unfold LaunchDataView.super_dispatch, CompleteDeepLinkView.super_dispatch,
      SetScoreView.super_dispatch, ScoreboardView.super_dispatch, View_dispatch;
    destruct (method (request self)); try done; by case_bool_decide.
Qed.

Lemma method_checked_after_load_witness :
  as_view game_complete_deep_link
    (sample.a_view http.GET ∅ {[ "launch_id" := "lti1p3-launch-0001" ]}
       {[ "lti1p3-launch-0001" := sample.student_launch ]} sample.student_launch)
  = ([from_cache_call (Some "lti1p3-launch-0001")],
     Ok (Plain HttpResponseNotAllowed)).
Proof.
  exact (proj1 (method_checked_after_load game_complete_deep_link
                  (sample.a_view http.GET ∅ {[ "launch_id" := "lti1p3-launch-0001" ]}
                     {[ "lti1p3-launch-0001" := sample.student_launch ]}
                     sample.student_launch)
                  (Some "lti1p3-launch-0001") eq_refl eq_refl eq_refl)).
Defined.

(** ** The scoreboard *)

Lemma set_role_flags_ok (roles : Roles)
    (members flagged : list (gmap string val)) :
  ScoreboardView.set_role_flags roles members = Ok flagged →
  length flagged = length members
  ∧ ∀ (j : nat) (m : gmap string val),
      members !! j = Some m →
      ∃ m' r teacher student,
        flagged !! j = Some m'
        ∧ m !! "roles" = Some r
        ∧ TeacherRole_check roles (VDict {[ ROLES := r ]}) = Ok teacher
        ∧ StudentRole_check roles (VDict {[ ROLES := r ]}) = Ok student
        ∧ m' !! "teacher" = Some (VBool teacher)
        ∧ m' !! "student" = Some (VBool student)
        ∧ ∀ key, key ≠ "teacher" → key ≠ "student" → m' !! key = m !! key.
Proof.
  revert flagged.
  induction members as [|m0 members IH]; intros flagged;
    cbn [ScoreboardView.set_role_flags].
  - intros [= <-]. split; [done|]. by intros j m ?.
  - unfold dict_item. destruct (m0 !! "roles") as [r|] eqn:Hr; cbn [rbind]; [|done].
    destruct (TeacherRole_check roles _) as [teacher|] eqn:Ht; cbn [rbind]; [|done].
    destruct (StudentRole_check roles _) as [student|] eqn:Hs; cbn [rbind]; [|done].
    destruct (ScoreboardView.set_role_flags roles members) as [flagged'|] eqn:Hrest;
      cbn [rbind]; [|done].
    intros [= <-]. destruct (IH _ eq_refl) as [Hlen Hmem]. split.
    { cbn. by rewrite Hlen. }
    intros [|j] m; cbn.
    + intros [= <-]. eexists _, r, teacher, student. split_and!; try done.
      * by rewrite lookup_insert_ne, lookup_insert_eq.
      * by rewrite lookup_insert_eq.
      * intros key ? ?. by rewrite !lookup_insert_ne.
    + apply Hmem.
Qed.

(** X10.  The role flags: when the loop over the members completes, every
    member is at its place with its fields as they were, but for
    ['teacher'] and ['student'], which hold what the role classes of the
    library answer on the roles of the member. *)
Theorem role_flags_keep_members (roles : Roles)
    (members flagged : list (gmap string val)) :
  ScoreboardView.set_role_flags roles members = Ok flagged →
  length flagged = length members
  ∧ ∀ (j : nat) (m : gmap string val),
      members !! j = Some m →
      ∃ m' r teacher student,
        flagged !! j = Some m'
        ∧ m !! "roles" = Some r
        ∧ TeacherRole_check roles (VDict {[ ROLES := r ]}) = Ok teacher
        ∧ StudentRole_check roles (VDict {[ ROLES := r ]}) = Ok student
        ∧ m' !! "teacher" = Some (VBool teacher)
        ∧ m' !! "student" = Some (VBool student)
        ∧ ∀ key, key ≠ "teacher" → key ≠ "student" → m' !! key = m !! key.
Proof. apply set_role_flags_ok. Qed.

Lemma role_flags_keep_members_witness :
  length [<["student" := VBool false]> (<["teacher" := VBool true]> sample.alice);
          <["student" := VBool true]> (<["teacher" := VBool false]> sample.bob)]
  = length [sample.alice; sample.bob].
Proof.
  exact (proj1 (role_flags_keep_members sample.role_classes
                  [sample.alice; sample.bob] _ eq_refl)).
Defined.

(** X11.  A member without roles stops the scoreboard: when the loop over
    the members reaches a member that has no ['roles'], it raises a key
    error on that key. *)
Theorem role_flags_need_roles (roles : Roles)
    (before : list (gmap string val)) (m : gmap string val)
    (after flagged : list (gmap string val)) :
  ScoreboardView.set_role_flags roles before = Ok flagged →
  m !! "roles" = None →
  ScoreboardView.set_role_flags roles (before ++ m :: after)
  = Raise (KeyError (VStr "roles")).
Proof.
  intros Hbefore Hm. revert flagged Hbefore.
  induction before as [|m0 before IH]; intros flagged;
    cbn [ScoreboardView.set_role_flags app].
  - intros _. unfold dict_item. by rewrite Hm.
  - destruct (dict_item m0 "roles") as [r|]; cbn [rbind]; [|done].
    destruct (TeacherRole_check roles _); cbn [rbind]; [|done].
    destruct (StudentRole_check roles _); cbn [rbind]; [|done].
    destruct (ScoreboardView.set_role_flags roles before) as [flagged'|] eqn:Hrest;
      cbn [rbind]; [|done].
    intros _. by rewrite (IH _ eq_refl).
Qed.

Lemma role_flags_need_roles_witness :
  ScoreboardView.set_role_flags sample.role_classes
    ([sample.alice] ++ {[ "user_id" := VStr "u-dave" ]} :: [sample.bob])
  = Raise (KeyError (VStr "roles")).
Proof.
  exact (role_flags_need_roles sample.role_classes [sample.alice]
           {[ "user_id" := VStr "u-dave" ]} [sample.bob] _ eq_refl eq_refl).
Defined.

(** X12.  The join on any roster: when it completes, the member that gets
    the scores of a user id is the last member with that id, and what it
    gets is the last score entry with that id; every other member is left as
    it was, a member that shares its id with a later one among them. *)
Theorem join_last_member_gets_last_score (members scores joined : list (gmap string val)) :
  ScoreboardView.join members scores = Ok joined →
  ∀ (j : nat) (m : gmap string val),
    members !! j = Some m →
    ∃ k,
      user_key m = Some k
      ∧ joined !! j
        = Some (scored (if decide (last_pos k members = Some j)
                        then last (filter (λ s, score_key s = Some k) scores)
                        else None) m).
Proof.
  intros Hjoin j m Hm. unfold ScoreboardView.join in Hjoin.
  destruct (ScoreboardView.member_by_user_from members 0 ∅) as [mbu|] eqn:Hmbu;
    cbn [rbind] in Hjoin; [|done].
  apply member_by_user_from_ok in Hmbu as [HF Hl].
  apply set_scores_ok in Hjoin as [_ Hj].
  destruct (proj1 (Forall_lookup _ _) HF j m Hm) as [k Hk].
  exists k. split; [done|]. rewrite Hj, Hm. cbn. do 2 f_equal.
  assert (∀ s k', score_key s = Some k' → mbu !! k' = Some j → k' = k) as Hkey.
  { intros s k' _. rewrite Hl.
    destruct (last_pos k' members) as [j'|] eqn:Hpos; [|by rewrite lookup_empty].
    intros [= <-]. apply last_pos_Some in Hpos as (m0 & Hm0 & Hk0). congruence. }
  destruct (decide (last_pos k members = Some j)) as [Hlast|Hlast].
  - f_equal. apply list_filter_iff. intros s. split.
    + destruct (score_key s) as [k'|] eqn:Hs; cbn; [|done].
      intros Hk'. by rewrite (Hkey s k' Hs Hk').
    + intros ->. cbn. by rewrite Hl, Hlast.
  - assert (filter (λ s, score_key s ≫= (mbu !!.) = Some j) scores = []) as ->; [|done].
    apply elem_of_nil_inv. intros s [Hs _]%list_elem_of_filter.
    destruct (score_key s) as [k'|] eqn:Hs'; cbn in Hs; [|done].
    pose proof (Hkey s k' Hs' Hs) as ->.
    apply Hlast. rewrite Hl in Hs. destruct (last_pos k members); [|by rewrite lookup_empty in Hs].
    by injection Hs as ->.
Qed.

Lemma join_last_member_gets_last_score_witness :
  ∃ k,
    user_key sample.bob = Some k
    ∧ [sample.bob; scored (Some (sample.score_of "u-bob" 85)) sample.bob] !! 0%nat
      = Some (scored (if decide (last_pos k [sample.bob; sample.bob] = Some 0%nat)
                      then last (filter (λ s, score_key s = Some k)
                                   [sample.score_of "u-bob" 85])
                      else None) sample.bob).
Proof.
  exact (join_last_member_gets_last_score [sample.bob; sample.bob]
           [sample.score_of "u-bob" 85] _ eq_refl 0%nat sample.bob eq_refl).
Defined.

(** X13.  The scoreboard does not catch the errors of the grade service:
    when the fetch of the scores raises, the view raises the same error, and
    the roster is never asked for. *)
Theorem scoreboard_grade_error_is_raised (self : view) (message_launch : MessageLaunch)
    (resource_link_id : val) (e : exn) :
  has_nrps message_launch = true →
  has_ags message_launch = true →
  attr_get (dict_get_default (get_launch_data message_launch)
              RESOURCE_LINK (VDict ∅)) "id" = Ok resource_link_id →
  fetched_scores (get_ags message_launch) resource_link_id = Raise e →
  outcome (ScoreboardView.get self message_launch) = Raise e
  ∧ get_members_call ∉ calls (ScoreboardView.get self message_launch).
Proof.
  intros Hnrps Hags Hrl Hscores.
  unfold ScoreboardView.get, TemplateView_get, ScoreboardView.get_context_data.
  rewrite Hrl, bind_lift_ok, Hnrps, Hags. cbn [negb].
  unfold fetched_scores, score_line_item_of in Hscores.
  destruct (can_create_lineitem (get_ags message_launch)).
  - destruct (truthy resource_link_id);
      (destruct (find_or_create_lineitem _ _) as [li|] eqn:Hli;
       [|injection Hscores as ->]);
      unfold perform; cbn; try rewrite Hscores; cbn;
      (split; [done|]);
      intros Hin; repeat (apply elem_of_cons in Hin as [Hin|Hin]; [discriminate|]);
      by apply elem_of_nil in Hin.
  - unfold perform; cbn; rewrite Hscores; cbn. split; [done|].
    intros Hin; repeat (apply elem_of_cons in Hin as [Hin|Hin]; [discriminate|]);
      by apply elem_of_nil in Hin.
Qed.

Lemma scoreboard_grade_error_is_raised_witness :
  let launch :=
    sample.launch "https://lms.example" false false false true true true
      (sample.data "rl-1" sample.score_scope_only None)
      {| can_create_lineitem := false;
         put_grade := λ _ _, Raise (LtiServiceException "no");
         find_or_create_lineitem := λ line_item, Ok line_item;
         get_grades := λ _, Raise (LtiServiceException "HTTP response: 403") |}
      None in
  outcome (ScoreboardView.get (sample.a_view http.GET ∅ ∅ ∅ launch) launch)
  = Raise (LtiServiceException "HTTP response: 403").
Proof.
  intros launch.
  exact (proj1 (scoreboard_grade_error_is_raised
                  (sample.a_view http.GET ∅ ∅ ∅ launch) launch (VStr "rl-1") _
                  eq_refl eq_refl eq_refl eq_refl)).
Defined.

Lemma scoreboard_context_inv (self : view) (message_launch : MessageLaunch)
    (ctx : gmap string val) :
  outcome (ScoreboardView.get_context_data self message_launch) = Ok (Context ctx) →
  ∃ resource_link_id scores members0 members joined,
    has_nrps message_launch = true
    ∧ has_ags message_launch = true
    ∧ attr_get (dict_get_default (get_launch_data message_launch)
                  RESOURCE_LINK (VDict ∅)) "id" = Ok resource_link_id
    ∧ fetched_scores (get_ags message_launch) resource_link_id = Ok scores
    ∧ get_members (get_nrps message_launch) = Ok members0
    ∧ ScoreboardView.set_role_flags (roles self) members0 = Ok members
    ∧ ScoreboardView.join members scores = Ok joined
    ∧ ctx = <["members" := VList (VDict <$> joined)]>
              (ContextMixin_get_context_data "ScoreboardView" (kwargs self)).
Proof.
  unfold ScoreboardView.get_context_data.
  destruct (attr_get _ _) as [rl|] eqn:Hrl; [rewrite bind_lift_ok|done].
  destruct (has_nrps message_launch) eqn:Hnrps; cbn [negb]; [|done].
  destruct (has_ags message_launch) eqn:Hags; cbn [negb]; [|done].
  intros H. exists rl. unfold fetched_scores, score_line_item_of.
  unfold perform in H.
  destruct (can_create_lineitem (get_ags message_launch)).
  - destruct (truthy rl);
      (destruct (find_or_create_lineitem _ _) as [li|]; cbn in H; [|done]);
      (destruct (get_grades _ _) as [scores|]; cbn in H; [|done]);
      (destruct (get_members _) as [members0|]; cbn in H; [|done]);
      (destruct (ScoreboardView.set_role_flags _ members0) as [members|] eqn:Hflags;
       cbn in H; [|done]);
      (destruct (ScoreboardView.join members scores) as [joined|] eqn:Hjoin;
       cbn in H; [|done]);
      injection H as <-;
      eexists scores, members0, members, joined; split_and!; done.
  - destruct (get_grades _ _) as [scores|]; cbn in H; [|done].
    destruct (get_members _) as [members0|]; cbn in H; [|done].
    destruct (ScoreboardView.set_role_flags _ members0) as [members|] eqn:Hflags;
      cbn in H; [|done].
    destruct (ScoreboardView.join members scores) as [joined|] eqn:Hjoin;
      cbn in H; [|done].
    injection H as <-.
    eexists scores, members0, members, joined; split_and!; done.
Qed.

(** X14.  What the scoreboard hands to its template is the roster of the
    platform: under ['members'] it has as many members as the roster, in the
    order of the roster, each with the fields the platform gave it; only
    ['teacher'], ['student'] and ['score'] are set by the view. *)
Theorem scoreboard_lists_the_roster (self : view) (message_launch : MessageLaunch)
    (ctx : gmap string val) :
  outcome (ScoreboardView.get_context_data self message_launch) = Ok (Context ctx) →
  ∃ members0 joined,
    get_members (get_nrps message_launch) = Ok members0
    ∧ ctx !! "members" = Some (VList (VDict <$> joined))
    ∧ length joined = length members0
    ∧ ∀ (j : nat) (m0 : gmap string val),
        members0 !! j = Some m0 →
        ∃ m', joined !! j = Some m'
              ∧ ∀ key, key ≠ "teacher" → key ≠ "student" → key ≠ "score" →
                       m' !! key = m0 !! key.
Proof.
  intros (rl & scores & members0 & members & joined & _ & _ & _ & _ & Hmembers
          & Hflags & Hjoin & ->)%scoreboard_context_inv.
  exists members0, joined. split; [done|]. split; [by rewrite lookup_insert_eq|].
  apply set_role_flags_ok in Hflags as [Hlen Hflag].
  unfold ScoreboardView.join in Hjoin.
  destruct (ScoreboardView.member_by_user_from members 0 ∅) as [mbu|];
    cbn [rbind] in Hjoin; [|done].
  apply set_scores_ok in Hjoin as [_ Hj].
  split; [by rewrite (lookup_fmap_length _ _ _ Hj)|].
  intros j m0 Hm0.
  destruct (Hflag j m0 Hm0) as (m & r & t & st & Hm & _ & _ & _ & _ & _ & Hkeep).
  rewrite Hj, Hm. cbn. eexists. split; [done|].
  intros key ? ? ?. rewrite <- Hkeep by done.
  destruct (last _); cbn; [|done]. by rewrite lookup_insert_ne.
Qed.

Lemma scoreboard_lists_the_roster_witness :
  ∃ members0 joined,
    get_members (get_nrps sample.student_launch) = Ok members0
    ∧ (<["members" :=
           VList (VDict <$>
             [scored (Some (sample.score_of "u-alice" 70))
                (<["student" := VBool false]> (<["teacher" := VBool true]> sample.alice));
              scored (Some (sample.score_of "u-bob" 85))
                (<["student" := VBool true]> (<["teacher" := VBool false]> sample.bob));
              <["student" := VBool true]> (<["teacher" := VBool false]> sample.carol)])]>
         (ContextMixin_get_context_data "ScoreboardView" ∅)) !! "members"
      = Some (VList (VDict <$> joined))
    ∧ length joined = length members0
    ∧ ∀ (j : nat) (m0 : gmap string val),
        members0 !! j = Some m0 →
        ∃ m', joined !! j = Some m'
              ∧ ∀ key, key ≠ "teacher" → key ≠ "student" → key ≠ "score" →
                       m' !! key = m0 !! key.
Proof.
  exact (scoreboard_lists_the_roster
           (sample.a_view http.GET ∅ ∅ ∅ sample.student_launch)
           sample.student_launch _ eq_refl).
Defined.

Section picked_calls.
Context {X : Type} (pick : call → option X).

Lemma picked_bind_nil {A B} (m : M A) (f : A → M B) :
  omap pick (calls m) = [] → (∀ a, omap pick (calls (f a)) = []) →
  omap pick (calls (bind m f)) = [].
Proof.
  intros Hm Hf. destruct (outcome m) as [a|e] eqn:Ho.
  - rewrite (calls_bind_ok _ _ _ Ho), omap_app, Hm, Hf. done.
  - by rewrite (calls_bind_raise _ _ _ Ho).
Qed.

Lemma picked_try_except_nil {A} (m : M A) (handler : exn → option (M A)) :
  omap pick (calls m) = [] → (∀ e h, handler e = Some h → omap pick (calls h) = []) →
  omap pick (calls (try_except m handler)) = [].
Proof.
  intros Hm Hh. destruct m as [t [a|e]]; unfold try_except; [exact Hm|].
  destruct (handler e) as [[t' r]|] eqn:He; [|exact Hm].
  change (omap pick (t ++ t') = []). change (omap pick t = []) in Hm.
  rewrite omap_app, Hm. apply (Hh _ _ He).
Qed.

End picked_calls.

Ltac none_picked :=
  repeat first
    [ reflexivity
    | apply picked_bind_nil; [|intros ?]
    | match goal with
      | |- context [if ?b then _ else _] => destruct b
      | |- context [match ?x with _ => _ end] => destruct x
      end ].

(** X15.  No view but the score view submits a grade. *)
Theorem only_score_view_submits (t : target) (self : view) :
  t ≠ game_api_set_score → submissions (calls (serve t self)) = [].
Proof.
  intros Ht. unfold submissions, serve. apply picked_bind_nil; [|done].
  destruct t; [| | |done|]; cbn [as_view].
  - unfold LaunchView.dispatch, LTIView.dispatch, LTIView.get_message_launch.
    rewrite bind_ret.
    unfold LaunchView.super_dispatch, View_dispatch, LaunchView.post, LaunchView.get,
      TemplateView_get, render_to_response, LaunchView.get_context_data,
      LaunchView.get_template_names,
      ExtendedDjangoMessageLaunch.get_launch_data_validating, validate,
      ExtendedDjangoMessageLaunch.validate_nonce, DjangoMessageLaunch.validate_nonce.
    none_picked.
  - unfold LaunchDataView.dispatch, LTIView.dispatch,
      CachedLTIView.get_message_launch, from_cache,
      LaunchDataView.super_dispatch, View_dispatch.
    none_picked.
  - unfold CompleteDeepLinkView.dispatch, LTIView.dispatch,
      CachedLTIView.get_message_launch, from_cache,
      CompleteDeepLinkView.super_dispatch, View_dispatch, CompleteDeepLinkView.post.
    none_picked.
  - unfold ScoreboardView.dispatch, LTIView.dispatch,
      CachedLTIView.get_message_launch, from_cache,
      ScoreboardView.super_dispatch, View_dispatch, ScoreboardView.get,
      TemplateView_get, ScoreboardView.get_context_data, render_to_response.
    none_picked.
Qed.

Lemma only_score_view_submits_witness :
  submissions
    (calls (serve scoreboard
              (sample.a_view http.GET ∅ {[ "launch_id" := "lti1p3-launch-0001" ]}
                 {[ "lti1p3-launch-0001" := sample.student_launch ]}
                 sample.student_launch)))
  = [].
Proof. by apply (only_score_view_submits scoreboard). Defined.

(** ** The login view *)

Lemma QueryDict_get_default (q : gmap string (list string)) (key : string)
    (dflt : option string) :
  QueryDict_get q key dflt
  = match QueryDict_get q key None with
    | Some v => Some v
    | None => dflt
    end.
Proof.
  unfold QueryDict_get. destruct (q !! key) as [l|]; [|done]. by destruct (last l).
Qed.

(** X16.  The target of the login: a target that the login view returns is
    not empty, and is the posted one, or the one of the query string when
    none is posted; an empty posted target raises the exception, whatever the
    query string holds, and so does a request without a target.  The view
    redirects only to such a target, with the check of the cookies
    enabled. *)
Theorem login_target (new_oidc_login : HttpRequest → DjangoOIDCLogin) (self : view) :
  let posted := QueryDict_get (POST (request self)) "target_link_uri" None in
  let queried := QueryDict_get (GET (request self)) "target_link_uri" None in
  (∀ uri, LoginView.get_launch_url self = Ok uri →
     uri ≠ "" ∧ (posted = Some uri ∨ posted = None ∧ queried = Some uri))
  ∧ (posted = Some "" ∨ posted = None ∧ (queried = None ∨ queried = Some "") →
     ∃ msg, LoginView.get_launch_url self = Raise (Exception msg)
            ∧ LoginView.dispatch new_oidc_login self = Raise (Exception msg))
  ∧ (∀ r, LoginView.dispatch new_oidc_login self = Ok r →
       ∃ uri, LoginView.get_launch_url self = Ok uri
              ∧ redirect_answer (new_oidc_login (request self)) true uri = Ok r).
Proof.
  intros posted queried.
  unfold LoginView.dispatch, LoginView.get_launch_url.
  rewrite QueryDict_get_default. fold posted. fold queried. split_and!.
  - intros uri. destruct posted as [p|].
    + cbn. destruct (String.eqb_spec p ""); cbn; [done|]. intros [= ->]. eauto.
    + destruct queried as [g|]; [|done].
      cbn. destruct (String.eqb_spec g ""); cbn; [done|]. intros [= ->]. eauto.
  - intros [->|[-> [->| ->]]]; cbn; eauto.
  - intros r. destruct posted as [p|].
    + cbn. destruct (String.eqb p ""); cbn; [done|]. eauto.
    + destruct queried as [g|]; [|done].
      cbn. destruct (String.eqb g ""); cbn; [done|]. eauto.
Qed.

Lemma login_target_witness :
  ∃ msg,
    LoginView.get_launch_url
      {| request := {| method := http.POST;
                       POST := {[ "target_link_uri" := [""] ]};
                       GET := {[ "target_link_uri" := ["https://tool.example/launch/"] ]};
                       scheme_host := "https://tool.example" |};
         kwargs := ∅;
         launch_data_storage := ∅;
         message_launch_cls := λ _, sample.student_launch;
         roles := sample.role_classes;
         utcnow_isoformat := "2024-05-01T10:00:00.000000" |}
    = Raise (Exception msg)
    ∧ LoginView.dispatch
        (λ _, {| check_cookies := false;
                 redirect_answer := λ _ uri, Ok (HttpResponse uri) |})
        {| request := {| method := http.POST;
                         POST := {[ "target_link_uri" := [""] ]};
                         GET := {[ "target_link_uri" := ["https://tool.example/launch/"] ]};
                         scheme_host := "https://tool.example" |};
           kwargs := ∅;
           launch_data_storage := ∅;
           message_launch_cls := λ _, sample.student_launch;
           roles := sample.role_classes;
           utcnow_isoformat := "2024-05-01T10:00:00.000000" |}
      = Raise (Exception msg).
Proof.
  apply (login_target
           (λ _, {| check_cookies := false;
                    redirect_answer := λ _ uri, Ok (HttpResponse uri) |})).
  left. reflexivity.
Defined.

(** ** The routes *)

(** X17.  A name reverses to the path of its own route: the path that
    [reverse] gives for a name resolves to the route of that name, with no
    keyword arguments. *)
Theorem reverse_resolves_to_its_route (name url : string) :
  urls.reverse name = Ok url →
  ∃ (i : nat) r v,
    urls.urlpatterns !! i = Some (r, Some name)
    ∧ resolver.views !! i = Some v
    ∧ resolver.resolve url = Some (v, ∅).
Proof.
  unfold urls.reverse. cbn.
  repeat (let Hname := fresh "Hname" in
          case_decide as Hname;
          [ try discriminate Hname; injection Hname as <-; cbn;
            let Hurl := fresh "Hurl" in
            intros Hurl; try discriminate Hurl; injection Hurl as <-;
            first [ exists 1%nat; eexists _, _; split_and!; reflexivity
                  | exists 2%nat; eexists _, _; split_and!; reflexivity
                  | exists 3%nat; eexists _, _; split_and!; reflexivity
                  | exists 4%nat; eexists _, _; split_and!; reflexivity
                  | exists 5%nat; eexists _, _; split_and!; reflexivity ]
          | ]).
  done.
Qed.

Lemma reverse_resolves_to_its_route_witness :
  ∃ (i : nat) r v,
    urls.urlpatterns !! i = Some (r, Some "game-launch")
    ∧ resolver.views !! i = Some v
    ∧ resolver.resolve "/launch/" = Some (v, ∅).
Proof. exact (reverse_resolves_to_its_route "game-launch" "/launch/" eq_refl). Defined.

Lemma first_match_Some (patterns : list ((urls.route * option string) * resolver.routed))
    (path : string) (v : resolver.routed) (kw : gmap string string) :
  resolver.first_match patterns path = Some (v, kw) →
  ∃ r name, (r, name, v) ∈ patterns ∧ resolver.route_match r v path = Some kw.
Proof.
  induction patterns as [|[[r name] v0] patterns IH]; cbn; [done|].
  destruct (resolver.route_match r v0 path) as [kw0|] eqn:Hm.
  - intros [= <- <-]. exists r, name. split; [left|done].
  - intros (r' & name' & Hin & Hm')%IH. exists r', name'. split; [by right|done].
Qed.

Lemma match_launch_id_nonempty (s id : string) :
  resolver.match_launch_id s = Some id → id ≠ "".
Proof.
  unfold resolver.match_launch_id. destruct (resolver.take_id s) as [id' rest].
  destruct (String.eqb_spec id' ""); cbn; [done|].
  destruct (_ || _); [|done]. by intros [= <-].
Qed.

(** The keyword arguments that the routes give to the embedded views. *)
Lemma resolved_kwargs (url : string) (t : target) (kw : gmap string string) :
  resolver.resolve url = Some (resolver.embedded t, kw) →
  match t with
  | game_launch | game_complete_deep_link => kw = ∅
  | _ => ∃ id, id ≠ "" ∧ kw = {[ "launch_id" := id ]}
  end.
Proof.
  unfold resolver.resolve. destruct (resolver.strip_prefix "/" url) as [path|]; [|done].
  intros (r & name & Hin & Hm)%first_match_Some. cbn in Hin.
  repeat (apply elem_of_cons in Hin as [Hin|Hin]; [simplify_eq|]);
    try (by apply elem_of_nil in Hin);
    unfold resolver.route_match in Hm.
  - by destruct (String.eqb _ _); [injection Hm as <-|].
  - by destruct (String.eqb _ _); [injection Hm as <-|].
  - destruct (resolver.strip_prefix _ _) as [rest|]; [|done].
    destruct (resolver.match_launch_id rest) as [id|] eqn:Hid; [|done].
    injection Hm as <-. exists id. split; [by eapply match_launch_id_nonempty|done].
  - destruct (resolver.strip_prefix _ _) as [rest|]; [|done].
    destruct (resolver.match_launch_id rest) as [id|] eqn:Hid; [|done].
    injection Hm as <-. exists id. split; [by eapply match_launch_id_nonempty|done].
  - destruct (resolver.strip_prefix _ _) as [rest|]; [|done].
    destruct (resolver.match_launch_id rest) as [id|] eqn:Hid; [|done].
    injection Hm as <-. exists id. split; [by eapply match_launch_id_nonempty|done].
Qed.

(** X18.  The routes and the launch id: a URL that is routed to the score
    view, the scoreboard or the launch-data view carries a launch id that is
    not empty, so that the lookup of the id by the score view never raises;
    a URL routed to the launch view or to the deep-link view carries no
    keyword arguments. *)
Theorem routes_carry_launch_id (url : string) (t : target) (self : view) :
  resolver.resolve url = Some (resolver.embedded t, kwargs self) →
  match t with
  | game_launch | game_complete_deep_link => kwargs self = ∅
  | game_api_set_score =>
      ∃ id, id ≠ "" ∧ kwargs self = {[ "launch_id" := id ]}
            ∧ SetScoreView.get_launch_id self = Ok (Some id)
  | launch_data | scoreboard =>
      ∃ id, id ≠ "" ∧ kwargs self = {[ "launch_id" := id ]}
  end.
Proof.
  intros H%resolved_kwargs. destruct t; try done.
  destruct H as (id & Hid & Hkw). exists id. split_and!; [done..|].
  unfold SetScoreView.get_launch_id. by rewrite Hkw, lookup_singleton_eq.
Qed.

Lemma routes_carry_launch_id_witness :
  ∃ id, id ≠ ""
        ∧ ({[ "launch_id" := "lti1p3-launch-0001" ]} : gmap string string)
          = {[ "launch_id" := id ]}
        ∧ SetScoreView.get_launch_id
            (sample.a_view http.POST sample.score_form
               {[ "launch_id" := "lti1p3-launch-0001" ]} ∅ sample.student_launch)
          = Ok (Some id).
Proof.
  exact (routes_carry_launch_id "/api/score/lti1p3-launch-0001/" game_api_set_score
           (sample.a_view http.POST sample.score_form
              {[ "launch_id" := "lti1p3-launch-0001" ]} ∅ sample.student_launch)
           eq_refl).
Defined.

Lemma take_id_slash (id tail : string) :
  resolver.is_id id = true →
  resolver.take_id (id ++ String "/" tail)%string = (id, String "/" tail).
Proof.
  induction id as [|c id IH]; cbn [resolver.is_id]; [done|].
  intros [Hc Hid]%andb_prop.
  change (String c id ++ String "/" tail)%string
    with (String c (id ++ String "/" tail)%string).
  cbn [resolver.take_id]. by rewrite Hc, (IH Hid).
Qed.

Lemma match_launch_id_slash (id : string) :
  resolver.is_id id = true → id ≠ "" →
  resolver.match_launch_id (id ++ "/")%string = Some id.
Proof.
  intros Hid Hne. unfold resolver.match_launch_id.
  rewrite (take_id_slash _ _ Hid).
  by destruct (String.eqb_spec id "").
Qed.

(** X19.  The URLs of a launch id: for an id that is not empty and made of
    letters, digits, underscores and hyphens, the URLs of the score view, of
    the scoreboard and of the launch-data view with that id resolve to these
    views, with the id as the launch id. *)
Theorem launch_id_url_resolves (id : string) :
  resolver.is_id id = true → id ≠ "" →
  resolver.resolve ("/api/score/" ++ id ++ "/")%string
  = Some (resolver.embedded game_api_set_score, {[ "launch_id" := id ]})
  ∧ resolver.resolve ("/scoreboard/" ++ id ++ "/")%string
    = Some (resolver.embedded scoreboard, {[ "launch_id" := id ]})
  ∧ resolver.resolve ("/launch-data/" ++ id ++ "/")%string
    = Some (resolver.embedded launch_data, {[ "launch_id" := id ]}).
Proof.
  intros Hid Hne.
  pose proof (match_launch_id_slash _ Hid Hne) as Hm.
  change ("/api/score/" ++ id ++ "/")%string
    with ("/api/score/" ++ (id ++ "/"))%string.
  change ("/scoreboard/" ++ id ++ "/")%string
    with ("/scoreboard/" ++ (id ++ "/"))%string.
  change ("/launch-data/" ++ id ++ "/")%string
    with ("/launch-data/" ++ (id ++ "/"))%string.
  generalize dependent (id ++ "/")%string. intros rest Hm.
  unfold resolver.resolve.
  lazy -[resolver.match_launch_id singletonM]. by rewrite !Hm.
Qed.

Lemma launch_id_url_resolves_witness :
  resolver.resolve ("/api/score/" ++ "lti1p3-launch-0001" ++ "/")%string
  = Some (resolver.embedded game_api_set_score,
          {[ "launch_id" := "lti1p3-launch-0001" ]}).
Proof.
  apply (launch_id_url_resolves "lti1p3-launch-0001"); [reflexivity|discriminate].
Defined.

(** X20.  The deep-link view gets no launch id from its URL: a request
    routed to it that posts no [launch_id] fails at the load, with no call
    but the load. *)
Theorem complete_deep_link_needs_posted_id (url : string) (self : view) :
  resolver.resolve url = Some (resolver.embedded game_complete_deep_link, kwargs self) →
  QueryDict_get (POST (request self)) "launch_id" None = None →
  as_view game_complete_deep_link self
  = ([from_cache_call None], Raise (LtiException "Launch data not found")).
Proof.
  intros Hkw%resolved_kwargs Hpost.
  assert (get_launch_id_of game_complete_deep_link self = Ok None) as Hid.
  { cbn. unfold CachedLTIView.get_launch_id, CachedLTIView.launch_id_param.
    by rewrite QueryDict_get_default, Hpost, Hkw, lookup_empty. }
  by rewrite (cached_dispatch_load game_complete_deep_link self None eq_refl Hid).
Qed.

Lemma complete_deep_link_needs_posted_id_witness :
  as_view game_complete_deep_link
    (sample.a_view http.POST {[ "special-word" := ["cat"] ]} ∅
       {[ "lti1p3-launch-0001" := sample.student_launch ]} sample.student_launch)
  = ([from_cache_call None], Raise (LtiException "Launch data not found")).
Proof.
  exact (complete_deep_link_needs_posted_id "/complete-deep-link/"
           (sample.a_view http.POST {[ "special-word" := ["cat"] ]} ∅
              {[ "lti1p3-launch-0001" := sample.student_launch ]}
              sample.student_launch)
           eq_refl eq_refl).
Defined.

(** X21.  The launch URL of the tool: the URL that the deep-link view gives
    to a resource and the target that the registration announces for
    deep-linking requests are the same URL, the address of the tool followed
    by a path that is routed to the launch view. *)
Theorem deep_link_target_is_launch_route (self : view) :
  ∃ resource message path,
    CompleteDeepLinkView.get_deep_link_resource self = Ok resource
    ∧ DynamicRegistration.get_messages (request self) = Ok [message]
    ∧ DeepLinkResource.url resource = Some (scheme_host (request self) ++ path)%string
    ∧ message !! "target_link_uri"
      = Some (VStr (scheme_host (request self) ++ path)%string)
    ∧ resolver.resolve path = Some (resolver.embedded game_launch, ∅).
Proof.
  unfold CompleteDeepLinkView.get_deep_link_resource, DynamicRegistration.get_messages.
  rewrite reverse_game_launch. cbn [rbind].
  eexists _, _, "/launch/". split_and!; reflexivity.
Qed.

(** ** From the page of a launch to its launch data *)

(** X22.  The launch id of the page opens the launch data: when a request to
    the launch view is answered with a page, the page has the id and the
    data of the launch, and a later GET to the launch-data view under that
    id, with no id posted, loads that launch and renders its page with the
    same id and the same data. *)
Theorem launch_page_id_opens_launch_data (st : gmap string MessageLaunch)
    (launch_request : view) (name : string) (ctx : gmap string val) :
  outcome (serve game_launch (with_storage st launch_request)) = Ok (render name ctx) →
  ∃ id data,
    ctx !! "launch_id" = Some (VStr id)
    ∧ ctx !! "launch_data" = Some (VDict data)
    ∧ ∀ self0 : view,
        method (request self0) = http.GET →
        QueryDict_get (POST (request self0)) "launch_id" None = None →
        kwargs self0 = {[ "launch_id" := id ]} →
        serve launch_data
          (with_storage (step st (game_launch, launch_request)) self0)
        = ([from_cache_call (Some id)],
           Ok (render "launch_data.html"
                 (<["launch_id" := VStr id]>
                  (<["launch_data" := VDict data]>
                  (<["custom_params" := dict_get_default data CUSTOM (VDict ∅)]>
                   ∅))))).
Proof.
  set (self := with_storage st launch_request).
  set (launch := message_launch_cls self (request self)).
  intros Hpage.
  assert (method (request self) = http.POST ∧ kwargs self = ∅
          ∧ outcome (validate ExtendedDjangoMessageLaunch.validate_nonce launch)
            = Ok launch
          ∧ ctx !! "launch_id" = Some (VStr (get_launch_id launch))
          ∧ ctx !! "launch_data" = Some (VDict (get_launch_data launch)))
    as (Hpost & Hkw & Hok & Hid & Hdata).
  { revert Hpage. unfold serve. cbn [as_view].
    unfold LaunchView.dispatch, LTIView.dispatch, LTIView.get_message_launch.
    rewrite bind_ret. fold launch.
    unfold LaunchView.super_dispatch, View_dispatch.
    destruct (method (request self)) eqn:Hm; try done.
    replace (bool_decide (http.POST ∈ LaunchView.http_method_names)) with true
      by reflexivity.
    cbn [default from_option]. unfold id, LaunchView.post, LaunchView.get_context_data.
    case_bool_decide as Hkw; [|done].
    unfold ExtendedDjangoMessageLaunch.get_launch_data_validating.
    destruct (validate_saves launch) as [[Hok _]|[[e He] _]].
    - destruct (validate _ launch) as [t r]. cbn in Hok. subst r.
      unfold LaunchView.get_template_names, render_to_response.
      destruct (LaunchView.get_special_word launch) as [w|]; [|done].
      destruct (_ || _), (is_deep_link_launch launch), (check_student_access launch);
        cbn; try done; intros [= <- <-]; split_and!; done.
    - destruct (validate _ launch) as [t r]. cbn in He. by subst r. }
  exists (get_launch_id launch), (get_launch_data launch).
  split_and!; [done..|]. intros self0 Hget Hposted Hkw0.
  rewrite (launch_view_step st launch_request Hpost Hkw Hok). fold self. fold launch.
  set (self' := with_storage _ self0).
  assert (get_launch_id_of launch_data self' = Ok (Some (get_launch_id launch))) as Hi.
  { cbn. unfold CachedLTIView.get_launch_id, CachedLTIView.launch_id_param.
    change (request self') with (request self0).
    change (kwargs self') with (kwargs self0).
    by rewrite QueryDict_get_default, Hposted, Hkw0, lookup_singleton_eq. }
  assert (as_view launch_data self'
          = ([from_cache_call (Some (get_launch_id launch))],
             outcome (LaunchDataView.get self' launch))) as Hview.
  { rewrite (cached_dispatch_load launch_data self' _ eq_refl Hi).
    cbn [mbind option_bind].
    change (launch_data_storage self') with (<[get_launch_id launch := launch]> st).
    rewrite lookup_insert_eq. cbn [super_dispatch_of].
    unfold LaunchDataView.super_dispatch, View_dispatch.
    change (request self') with (request self0). by rewrite Hget. }
  unfold serve. by rewrite Hview.
Qed.

Lemma launch_page_id_opens_launch_data_witness :
  ∃ id data,
    ∀ self0 : view,
      method (request self0) = http.GET →
      QueryDict_get (POST (request self0)) "launch_id" None = None →
      kwargs self0 = {[ "launch_id" := id ]} →
      serve launch_data
        (with_storage
           (step ∅ (game_launch, sample.a_view http.POST ∅ ∅ ∅ sample.student_launch))
           self0)
      = ([from_cache_call (Some id)],
         Ok (render "launch_data.html"
               (<["launch_id" := VStr id]>
                (<["launch_data" := VDict data]>
                (<["custom_params" := dict_get_default data CUSTOM (VDict ∅)]>
                 ∅))))).
Proof.
  edestruct (launch_page_id_opens_launch_data ∅
               (sample.a_view http.POST ∅ ∅ ∅ sample.student_launch))
    as (id & data & _ & _ & H); [reflexivity|].
  by exists id, data.
Defined.
